(** * RunPod management CLI: a shallow embedding of [cli.py]

    The module [cli.py] wraps the RunPod API: [RunPodManager] creates,
    lists, inspects and terminates pods, waits for a created pod to be
    provisioned and writes an SSH configuration entry.

    The embedding follows the Python source function by function.
    Provider responses are loosely keyed dictionaries, so they are kept
    as Python values ([pyval]); the calls to the [runpod] package, to
    [time.sleep], [print] and the file system are effects on an explicit
    [world], threaded through an exception monad. *)

From Stdlib Require Import Strings.Ascii.
From stdpp Require Import gmap strings list pretty.
From Equations Require Import Equations.

Set Warnings "-register-all".
Local Open Scope string_scope.
Local Open Scope Z_scope.

(** ** Python values *)

(** JSON-like values as the [runpod] package returns them.  Dictionaries
    keep their insertion order (it shows in [repr]); keys are strings.
    A character of a text stands for the Unicode code point of its
    number, so texts are those of code points up to 255.  Texts with
    other code points and floating-point numbers are outside the
    model. *)
Inductive pyval :=
| PNone
| PBool (b : bool)
| PInt (z : Z)
| PStr (s : string)
| PList (l : list pyval)
| PDict (d : list (string * pyval)).

(** The exceptions the module can raise.  The first three are raised by
    [cli.py] itself, the next three by operations on values of the wrong
    shape, [FileNotFoundError] by a write into a directory that does not
    exist, and [ProviderError] stands for any error of the [runpod]
    package (transport or API). *)
Inductive exn :=
| ValueError (msg : string)
| RuntimeError (msg : string)
| AssertionError (msg : string)
| AttributeError
| KeyError (key : string)
| TypeError
| FileNotFoundError (path : string)
| ProviderError (msg : string).

Inductive result (A : Type) :=
| Ok (a : A)
| Raise (e : exn).
Arguments Ok {A} a.
Arguments Raise {A} e.

Definition rbind {A B} (r : result A) (k : A -> result B) : result B :=
  match r with
  | Ok a => k a
  | Raise e => Raise e
  end.

Notation "x <~ r ;; k" := (rbind r (fun x => k))
  (at level 100, r at next level, right associativity, only parsing).

Definition nl : string := String "010"%char "".

(** Truth value of a Python object ([if x], [not x]). *)
Definition py_truthy (v : pyval) : bool :=
  match v with
  | PNone => false
  | PBool b => b
  | PInt z => negb (z =? 0)
  | PStr s => negb (String.eqb s "")
  | PList l => match l with [] => false | _ => true end
  | PDict d => match d with [] => false | _ => true end
  end.

Fixpoint dict_lookup (key : string) (d : list (string * pyval)) : option pyval :=
  match d with
  | [] => None
  | (k, v) :: d' => if String.eqb key k then Some v else dict_lookup key d'
  end.

(** [o.get(key, dflt)]: only dictionaries have the method. *)
Definition py_get (o : pyval) (key : string) (dflt : pyval) : result pyval :=
  match o with
  | PDict d => Ok (default dflt (dict_lookup key d))
  | _ => Raise AttributeError
  end.

(** [o[key]] for a string key. *)
Definition py_getitem (o : pyval) (key : string) : result pyval :=
  match o with
  | PDict d =>
      match dict_lookup key d with
      | Some v => Ok v
      | None => Raise (KeyError key)
      end
  | _ => Raise TypeError
  end.

Fixpoint chars (s : string) : list pyval :=
  match s with
  | EmptyString => []
  | String c s' => PStr (String c "") :: chars s'
  end.

(** The elements [for x in o] runs over. *)
Definition py_iter (o : pyval) : result (list pyval) :=
  match o with
  | PList l => Ok l
  | PDict d => Ok (map (fun kv => PStr (fst kv)) d)
  | PStr s => Ok (chars s)
  | _ => Raise TypeError
  end.

(** [max(a, b)] on integers: the first argument wins a tie. *)
Definition py_max (a b : Z) : Z := if b >? a then b else a.

(** *** [str] and [repr] *)

Definition hex_digit (n : N) : ascii :=
  match n with
  | 10 => "a" | 11 => "b" | 12 => "c" | 13 => "d" | 14 => "e" | 15 => "f"
  | _ => pretty_N_char n
  end%N%char.

Fixpoint contains_char (c : ascii) (s : string) : bool :=
  match s with
  | EmptyString => false
  | String c' s' => Ascii.eqb c c' || contains_char c s'
  end.

Definition repr_char (quote : ascii) (c : ascii) : string :=
  let n := N_of_ascii c in
  if Ascii.eqb c quote then String "\" (String c "")
  else if Ascii.eqb c "\" then "\\"
  else if (n =? 10)%N then "\n"
  else if (n =? 13)%N then "\r"
  else if (n =? 9)%N then "\t"
  else if ((n <? 32) || (127 <=? n) && (n <=? 160) || (n =? 173))%N
       then "\x" +:+ String (hex_digit (n / 16)) (String (hex_digit (n mod 16)) "")
  else String c "".

Fixpoint repr_chars (quote : ascii) (s : string) : string :=
  match s with
  | EmptyString => ""
  | String c s' => repr_char quote c +:+ repr_chars quote s'
  end.

(** [repr] of a string: single quotes, unless the string has a single
    quote and no double quote. *)
Definition repr_str (s : string) : string :=
  let double : ascii := "034"%char in
  let quote : ascii :=
    if contains_char "'" s && negb (contains_char double s) then double else "'"%char in
  String quote (repr_chars quote s) +:+ String quote "".

Fixpoint join (sep : string) (l : list string) : string :=
  match l with
  | [] => ""
  | [x] => x
  | x :: l' => x +:+ sep +:+ join sep l'
  end.

Fixpoint py_repr (v : pyval) : string :=
  match v with
  | PNone => "None"
  | PBool true => "True"
  | PBool false => "False"
  | PInt z => pretty z
  | PStr s => repr_str s
  | PList l => "[" +:+ join ", " (map py_repr l) +:+ "]"
  | PDict d =>
      "{" +:+ join ", " (map (fun kv => repr_str (fst kv) +:+ ": " +:+ py_repr (snd kv)) d) +:+ "}"
  end.

(** What an f-string field [{v}] expands to. *)
Definition py_str (v : pyval) : string :=
  match v with
  | PStr s => s
  | _ => py_repr v
  end.

(** *** [textwrap.dedent] and [str.strip]

    The standard library functions [generate_ssh_config] relies on,
    after their documented behaviour. *)

(** A character of the class [[ \t]]. *)
Definition is_blank (c : ascii) : bool :=
  Ascii.eqb c " " || Ascii.eqb c "009".

(** The characters [str.isspace] accepts, among the code points up to
    255: the ASCII ones, the next-line control and the no-break space. *)
Definition is_space (c : ascii) : bool :=
  let n := N_of_ascii c in
  ((9 <=? n) && (n <=? 13) || (28 <=? n) && (n <=? 32) || (n =? 133) || (n =? 160))%N.

(** A visible ASCII character (code 33 to 126). *)
Definition is_visible (c : ascii) : bool :=
  let n := N_of_ascii c in
  ((33 <=? n) && (n <=? 126))%N.

(** The lines of a text, cut at every newline. *)
Fixpoint split_lines (s : string) : list string :=
  match s with
  | EmptyString => [""]
  | String c s' =>
      if Ascii.eqb c "010" then "" :: split_lines s'
      else match split_lines s' with
           | l :: ls => String c l :: ls
           | [] => [String c ""]
           end
  end.

Fixpoint all_blank (s : string) : bool :=
  match s with
  | EmptyString => true
  | String c s' => is_blank c && all_blank s'
  end.

Fixpoint leading_blanks (s : string) : string :=
  match s with
  | EmptyString => ""
  | String c s' => if is_blank c then String c (leading_blanks s') else ""
  end.

Fixpoint common_prefix (a b : string) : string :=
  match a, b with
  | String c a', String d b' =>
      if Ascii.eqb c d then String c (common_prefix a' b') else ""
  | _, _ => ""
  end.

Fixpoint strip_prefix (p s : string) : option string :=
  match p, s with
  | EmptyString, _ => Some s
  | String c p', String d s' => if Ascii.eqb c d then strip_prefix p' s' else None
  | String _ _, EmptyString => None
  end.

(** [s] without the prefix [p], or [s] itself when it does not start
    with [p]. *)
Definition remove_prefix (p s : string) : string :=
  default s (strip_prefix p s).

(** The margin [dedent] removes: the longest run of blanks that starts
    every line which has something else than blanks. *)
Definition margin_step (m : option string) (line : string) : option string :=
  if all_blank line then m
  else match m with
       | None => Some (leading_blanks line)
       | Some mg => Some (common_prefix mg (leading_blanks line))
       end.

Definition margin_of (lines : list string) : option string :=
  foldl margin_step None lines.

(** [textwrap.dedent(text)]: lines of blanks only become empty, then the
    common margin is taken off every line. *)
Definition dedent (text : string) : string :=
  let lines := map (fun line => if all_blank line then "" else line) (split_lines text) in
  match margin_of lines with
  | Some mg => join nl (map (remove_prefix mg) lines)
  | None => join nl lines
  end.

Fixpoint lstrip (s : string) : string :=
  match s with
  | EmptyString => ""
  | String c s' => if is_space c then lstrip s' else s
  end.

Fixpoint rstrip (s : string) : string :=
  match s with
  | EmptyString => ""
  | String c s' =>
      match rstrip s' with
      | EmptyString => if is_space c then "" else String c ""
      | r => String c r
      end
  end.

(** [s.strip()] *)
Definition strip (s : string) : string := rstrip (lstrip s).

(** No character of [s] satisfies [p]. *)
Fixpoint no_char (p : ascii -> bool) (s : string) : bool :=
  match s with
  | EmptyString => true
  | String c s' => negb (p c) && no_char p s'
  end.

(** [rstrip] leaves something of [s]. *)
Definition solid (s : string) : Prop := rstrip s <> "".

(** The text has no newline. *)
Definition one_line (s : string) : Prop := no_char (Ascii.eqb "010") s = true.

(** The text is not empty and made of visible ASCII characters only. *)
Definition one_word (s : string) : Prop :=
  s <> "" /\ no_char (fun c => negb (is_visible c)) s = true.

(** The directory of a path: the text before its last slash. *)
Fixpoint dirname (path : string) : string :=
  match path with
  | EmptyString => ""
  | String c rest => if contains_char "/" rest then String c (dirname rest) else ""
  end.

(** ** The [runpod] package and the world around the program *)

(** The keyword arguments of [runpod.create_pod] as [create_pod] passes
    them. *)
Record create_request := CreateRequest {
  req_name : string;
  req_image_name : string;
  req_gpu_type_id : string;
  req_cloud_type : string;
  req_gpu_count : Z;
  req_volume_in_gb : Z;
  req_container_disk_in_gb : Z;
  req_min_vcpu_count : Z;
  req_min_memory_in_gb : Z;
  req_docker_args : string;
  req_env : option (list (string * string));
  req_ports : string;
  req_volume_mount_path : string;
  req_network_volume_id : string
}.

(** The provider behind the [runpod] package: four calls, each answering
    a value or failing with a message, over a remote state [P] that also
    moves while the client sleeps. *)
Class Provider (P : Type) := {
  provider_create_pod : create_request -> P -> (string + pyval) * P;
  provider_get_pod : pyval -> P -> (string + pyval) * P;
  provider_get_pods : P -> (string + pyval) * P;
  provider_terminate_pod : pyval -> P -> (string + pyval) * P;
  provider_elapse : Z -> P -> P
}.

(** What the program does that can be observed from outside, in order. *)
Inductive event :=
| EPrint (text : string)
| ECreatePod (req : create_request)
| EGetPod (pod_id : pyval)
| EGetPods
| ETerminatePod (pod_id : pyval)
| ESleep (seconds : Z)
| EWriteText (path : string) (data : string).

Definition is_terminate (e : event) : bool :=
  match e with ETerminatePod _ => true | _ => false end.

Definition is_get_pod (e : event) : bool :=
  match e with EGetPod _ => true | _ => false end.

Definition is_sleep (e : event) : bool :=
  match e with ESleep _ => true | _ => false end.

Definition not_terminate (e : event) : bool := negb (is_terminate e).

(** If [e] is a sleep, it lasts [t] seconds. *)
Definition sleep_lasts (t : Z) (e : event) : bool :=
  match e with ESleep s => s =? t | _ => true end.

Definition is_write (e : event) : bool :=
  match e with EWriteText _ _ => true | _ => false end.

Section Manager.
Context {P : Type} `{!Provider P}.

(** The state one run of the CLI works on.  [environ] is [os.environ],
    [dotenv] the variables of the [.env] file, [home] is [Path.home()],
    [files] maps a path to the text of the file there, [dirs] holds the
    directories that exist.  [api_key] and [pod_host_ids] are the
    attributes of the one [RunPodManager] instance of the run
    ([runpod.api_key] holds the same key).  Failures of the operating
    system other than a missing directory (permissions, a full disk)
    are outside the model. *)
Record world := World {
  environ : gmap string string;
  dotenv : gmap string string;
  home : string;
  files : gmap string string;
  remote : P;
  trace : list event;
  api_key : option string;
  pod_host_ids : list (pyval * pyval);
  dirs : gset string
}.

Definition M (A : Type) : Type := world -> result A * world.

Definition ret {A} (a : A) : M A := fun w => (Ok a, w).

Definition raise {A} (e : exn) : M A := fun w => (Raise e, w).

Definition bind {A B} (m : M A) (k : A -> M B) : M B :=
  fun w =>
    match m w with
    | (Ok a, w') => k a w'
    | (Raise e, w') => (Raise e, w')
    end.

Definition lift {A} (r : result A) : M A := fun w => (r, w).

Definition log (e : event) (w : world) : world :=
  World (environ w) (dotenv w) (home w) (files w) (remote w) (trace w ++ [e])
        (api_key w) (pod_host_ids w) (dirs w).

Definition set_remote (p : P) (w : world) : world :=
  World (environ w) (dotenv w) (home w) (files w) p (trace w)
        (api_key w) (pod_host_ids w) (dirs w).

(** [print(text)] *)
Definition print (text : string) : M unit :=
  fun w => (Ok tt, log (EPrint text) w).

(** [time.sleep(seconds)] *)
Definition sleep (seconds : Z) : M unit :=
  fun w => (Ok tt, set_remote (provider_elapse seconds (remote w)) (log (ESleep seconds) w)).

Definition call (e : event) (op : P -> (string + pyval) * P) : M pyval :=
  fun w =>
    let w1 := log e w in
    match op (remote w1) with
    | (inr v, p) => (Ok v, set_remote p w1)
    | (inl msg, p) => (Raise (ProviderError msg), set_remote p w1)
    end.

Definition runpod_create_pod (req : create_request) : M pyval :=
  call (ECreatePod req) (provider_create_pod req).

Definition runpod_get_pod (pod_id : pyval) : M pyval :=
  call (EGetPod pod_id) (provider_get_pod pod_id).

Definition runpod_get_pods : M pyval :=
  call EGetPods provider_get_pods.

Definition runpod_terminate_pod (pod_id : pyval) : M pyval :=
  call (ETerminatePod pod_id) (provider_terminate_pod pod_id).

(** [load_dotenv(override=True)]: the variables of the [.env] file
    replace those of the environment. *)
Definition load_dotenv : M unit :=
  fun w => (Ok tt, World (dotenv w ∪ environ w) (dotenv w) (home w) (files w)
                         (remote w) (trace w) (api_key w) (pod_host_ids w) (dirs w)).

(** [os.getenv(name)] *)
Definition getenv (name : string) : M (option string) :=
  fun w => (Ok (environ w !! name), w).

(** [Path(path).write_text(data)]: the file is opened for writing, which
    fails when its directory does not exist and empties the file
    otherwise; then [data] is written. *)
Definition write_text (path data : string) : M unit :=
  fun w =>
    if decide (dirname path ∈ dirs w)
    then (Ok tt, World (environ w) (dotenv w) (home w) (<[path := data]> (files w))
                       (remote w) (trace w ++ [EWriteText path data])
                       (api_key w) (pod_host_ids w) (dirs w))
    else (Raise (FileNotFoundError path), w).

Definition set_api_key (key : option string) : M unit :=
  fun w => (Ok tt, World (environ w) (dotenv w) (home w) (files w) (remote w) (trace w)
                         key (pod_host_ids w) (dirs w)).

Definition set_pod_host_ids (ids : list (pyval * pyval)) : M unit :=
  fun w => (Ok tt, World (environ w) (dotenv w) (home w) (files w) (remote w) (trace w)
                         (api_key w) ids (dirs w)).

Notation "x <- m ;; k" := (bind m (fun x => k))
  (at level 100, m at next level, right associativity, only parsing).

(** ** [RunPodManager] *)

(** [RunPodManager.__init__] *)
Definition __init__ : M unit :=
  _ <- load_dotenv ;;
  key <- getenv "RUNPOD_API_KEY" ;;
  _ <- set_api_key key ;;
  match key with
  | Some (String _ _) => set_pod_host_ids []
  | _ => raise (ValueError "RUNPOD_API_KEY not found in environment. Set it in your .env file.")
  end.

(** [pod.get('machine', {}).get(key)] *)
Definition machine_field (pod : pyval) (key : string) : result pyval :=
  machine <~ py_get pod "machine" (PDict []) ;;
  py_get machine key PNone.

(** [[i for i in items if i["isIpPublic"]]] *)
Fixpoint filter_public (items : list pyval) : result (list pyval) :=
  match items with
  | [] => Ok []
  | i :: items' =>
      flag <~ py_getitem i "isIpPublic" ;;
      rest <~ filter_public items' ;;
      Ok (if py_truthy flag then i :: rest else rest)
  end.

(** [[i for i in pod.get("runtime", {}).get("ports", []) if i["isIpPublic"]]],
    the expression of [list_pods] and [get_pod]. *)
Definition listed_public_ip (pod : pyval) : result (list pyval) :=
  runtime <~ py_get pod "runtime" (PDict []) ;;
  ports <~ py_get runtime "ports" (PList []) ;;
  items <~ py_iter ports ;;
  filter_public items.

(** [assert len(public_ip) == 1, msg], then [public_ip[0]]. *)
Definition the_public_ip (public_ip : list pyval) (msg : string) : result pyval :=
  match public_ip with
  | [b] => Ok b
  | _ => Raise (AssertionError msg)
  end.

(** The body of the loop of [list_pods], for the pod at index [i]. *)
Definition list_pods_item (i : nat) (pod : pyval) : M unit :=
  _ <- print ("Pod " +:+ pretty (Z.of_nat i + 1) +:+ ":") ;;
  v <- lift (py_get pod "id" PNone) ;;
  _ <- print ("  ID: " +:+ py_str v) ;;
  v <- lift (py_get pod "name" PNone) ;;
  _ <- print ("  Name: " +:+ py_str v) ;;
  v <- lift (machine_field pod "gpuDisplayName") ;;
  _ <- print ("  Machine Type: " +:+ py_str v) ;;
  v <- lift (py_get pod "desiredStatus" PNone) ;;
  _ <- print ("  Status: " +:+ py_str v) ;;
  public_ip <- lift (listed_public_ip pod) ;;
  b <- lift (the_public_ip public_ip "") ;;
  v <- lift (py_get b "ip" PNone) ;;
  _ <- print ("  Public IP: " +:+ py_str v) ;;
  v <- lift (py_get b "publicPort" PNone) ;;
  _ <- print ("  Public port: " +:+ py_str v) ;;
  print "".

Fixpoint for_enumerate (body : nat -> pyval -> M unit) (i : nat) (l : list pyval) : M unit :=
  match l with
  | [] => ret tt
  | x :: l' => _ <- body i x ;; for_enumerate body (S i) l'
  end.

(** [RunPodManager.list_pods] *)
Definition list_pods : M unit :=
  pods <- runpod_get_pods ;;
  items <- lift (py_iter pods) ;;
  for_enumerate list_pods_item 0%nat items.

(** [RunPodManager.get_pod] *)
Definition get_pod (pod_id : pyval) : M unit :=
  pod <- runpod_get_pod pod_id ;;
  _ <- print "Pod Details:" ;;
  v <- lift (py_get pod "id" PNone) ;;
  _ <- print ("  ID: " +:+ py_str v) ;;
  v <- lift (py_get pod "name" PNone) ;;
  _ <- print ("  Name: " +:+ py_str v) ;;
  v <- lift (machine_field pod "gpuDisplayName") ;;
  _ <- print ("  Machine Type: " +:+ py_str v) ;;
  v <- lift (py_get pod "desiredStatus" PNone) ;;
  _ <- print ("  Status: " +:+ py_str v) ;;
  v <- lift (machine_field pod "podHostId") ;;
  _ <- print ("  Pod Host ID: " +:+ py_str v) ;;
  public_ip <- lift (listed_public_ip pod) ;;
  b <- lift (the_public_ip public_ip "") ;;
  v <- lift (py_get b "ip" PNone) ;;
  _ <- print ("  Public IP: " +:+ py_str v) ;;
  v <- lift (py_get b "publicPort" PNone) ;;
  _ <- print ("  Public port: " +:+ py_str v) ;;
  print ("  Full Data: " +:+ py_str pod).

(** [RunPodManager.generate_ssh_config]: the f-string, line by line as
    the source indents it, then [textwrap.dedent] and [strip]. *)
Definition generate_ssh_config (ip port user : pyval) (forward_agent : bool) : string :=
  strip (dedent (
    nl +:+
    "            Host runpod" +:+ nl +:+
    "              HostName " +:+ py_str ip +:+ nl +:+
    "              User " +:+ py_str user +:+ nl +:+
    "              Port " +:+ py_str port +:+ nl +:+
    "              " +:+ (if forward_agent then "ForwardAgent yes" else "") +:+ nl +:+
    "        ")).

(** The parameters of [create_pod]. *)
Record create_args := CreateArgs {
  name : string;
  image_name : string;
  gpu_type : string;
  cloud_type : string;
  gpu_count : Z;
  volume_in_gb : Z;
  min_vcpu_count : Z;
  min_memory_in_gb : Z;
  container_disk_in_gb : Z;
  args : string;
  volume_mount_path : string;
  env : option (list (string * string));
  runtime : Z;
  update_ssh_config : bool;
  forward_agent : bool;
  network_volume_id : string
}.

Definition default_args : create_args := {|
  name := "test";
  image_name := "runpod/pytorch:2.4.0-py3.11-cuda12.4.1-devel-ubuntu22.04";
  gpu_type := "NVIDIA A40";
  cloud_type := "SECURE";
  gpu_count := 1;
  volume_in_gb := 10;
  min_vcpu_count := 1;
  min_memory_in_gb := 1;
  container_disk_in_gb := 30;
  args := "";
  volume_mount_path := "/ssd";
  env := None;
  runtime := 120;
  update_ssh_config := true;
  forward_agent := false;
  network_volume_id := "t3uq90cdfb"
|}.

(** The docker arguments [create_pod] builds from [args] (lines 201-205). *)
Definition startup_command (volume_mount_path args : string) (runtime : Z) : string :=
  let args := if py_truthy (PStr args) then " " +:+ args +:+ ";" else "" in
  "/bin/bash -c '" +:+ volume_mount_path +:+ "/start.sh;" +:+ args +:+
  " sleep " +:+ pretty (py_max (runtime * 60) 20) +:+ "; " +:+
  volume_mount_path +:+ "/terminate.sh'".

Definition n_attempts : Z := 36.

(** [runtime is None or not runtime.get("ports")] for
    [runtime = pod.get("runtime")]. *)
Definition no_ports_yet (pod : pyval) : result bool :=
  runtime <~ py_get pod "runtime" PNone ;;
  match runtime with
  | PNone => Ok true
  | _ => ports <~ py_get runtime "ports" PNone ;; Ok (negb (py_truthy ports))
  end.

(** The [while True] loop of [create_pod], entered with counter [i].
    It ends because [n_attempts + 1 - i] decreases on every turn. *)
Equations? wait_loop (pod_id : pyval) (i : Z) (w : world) : result pyval * world
  by wf (Z.to_nat (n_attempts + 1 - i)) lt :=
wait_loop pod_id i w with runpod_get_pod pod_id w := {
  | (Raise e, w1) => (Raise e, w1)
  | (Ok pod, w1) with no_ports_yet pod := {
      | Raise e => (Raise e, w1)
      | Ok false => (Ok pod, w1)
      | Ok true with Z_gt_dec i n_attempts := {
          | left _ => (Raise (RuntimeError "Pod provisioning failed"), w1)
          | right _ => wait_loop pod_id (i + 1) (snd (sleep 5 w1)) } } }.
Proof. unfold n_attempts in *. lia. Qed.

#[global] Arguments wait_loop : simpl never.

(** Lines 236-248: the wait for the pod's ports. *)
Definition wait_for_ports (pod_id : pyval) : M pyval := wait_loop pod_id 1.

(** [self.pod_host_ids[pod_id] = pod_host_id]; lists and dictionaries
    cannot be keys. *)
Definition store_pod_host_id (pod_id pod_host_id : pyval) : M unit :=
  match pod_id with
  | PList _ | PDict _ => raise TypeError
  | _ => fun w => set_pod_host_ids ((pod_id, pod_host_id) :: pod_host_ids w) w
  end.

(** [[i for i in pod["runtime"]["ports"] if i["isIpPublic"]]] *)
Definition provisioned_public_ip (pod : pyval) : result (list pyval) :=
  runtime <~ py_getitem pod "runtime" ;;
  ports <~ py_getitem runtime "ports" ;;
  items <~ py_iter ports ;;
  filter_public items.

Definition ssh_config_path (w : world) : string :=
  home w +:+ "/.ssh/runpod_config".

Definition ssh_dir (w : world) : string := home w +:+ "/.ssh".

(** Lines 189-234 of [create_pod]: the request is announced and sent;
    the result is [(pod_id, pod_host_id)]. *)
Definition launch (a : create_args) : M (pyval * pyval) :=
  _ <- print "Creating pod with:" ;;
  _ <- print ("  Name: " +:+ name a) ;;
  _ <- print ("  Image: " +:+ image_name a) ;;
  _ <- print ("  GPU Type: " +:+ gpu_type a) ;;
  _ <- print ("  Cloud Type: " +:+ cloud_type a) ;;
  _ <- print ("  GPU Count: " +:+ pretty (gpu_count a)) ;;
  _ <- print ("  Time limit: " +:+ pretty (runtime a) +:+ " minutes") ;;
  _ <- print ("  Network volume ID: " +:+ network_volume_id a) ;;
  let docker_args := startup_command (volume_mount_path a) (args a) (runtime a) in
  _ <- print ("  Pod start command: " +:+ docker_args) ;;
  pod <- runpod_create_pod {|
    req_name := name a;
    req_image_name := image_name a;
    req_gpu_type_id := gpu_type a;
    req_cloud_type := cloud_type a;
    req_gpu_count := gpu_count a;
    req_volume_in_gb := volume_in_gb a;
    req_container_disk_in_gb := container_disk_in_gb a;
    req_min_vcpu_count := min_vcpu_count a;
    req_min_memory_in_gb := min_memory_in_gb a;
    req_docker_args := docker_args;
    req_env := env a;
    req_ports := "8888/http,22/tcp";
    req_volume_mount_path := volume_mount_path a;
    req_network_volume_id := network_volume_id a |} ;;
  pod_id <- lift (py_get pod "id" PNone) ;;
  pod_host_id <- lift (machine_field pod "podHostId") ;;
  _ <- (if py_truthy pod_host_id then store_pod_host_id pod_id pod_host_id else ret tt) ;;
  _ <- print "Pod created:" ;;
  _ <- print ("  Instance ID: " +:+ py_str pod_id) ;;
  _ <- print ("  Pod Host ID: " +:+ py_str pod_host_id) ;;
  _ <- print "  Provisioning..." ;;
  ret (pod_id, pod_host_id).

(** Lines 250-267 of [create_pod]: the connection data of the
    provisioned [pod] is printed and, on request, written. *)
Definition present (a : create_args) (pod pod_host_id : pyval) : M unit :=
  _ <- print "  Pod provisioned" ;;
  public_ip <- lift (provisioned_public_ip pod) ;;
  b <- lift (the_public_ip public_ip
               ("Expected 1 public IP, got " +:+ pretty (Z.of_nat (length public_ip)))) ;;
  ip <- lift (py_get b "ip" PNone) ;;
  port <- lift (py_get b "publicPort" PNone) ;;
  _ <- print ("  Public IP: " +:+ py_str ip) ;;
  _ <- print ("  Public port: " +:+ py_str port) ;;
  _ <- print ("  basic SSH command:" +:+ nl +:+ "ssh " +:+ py_str pod_host_id +:+ "@ssh.runpod.io") ;;
  _ <- print ("  full SSH command:" +:+ nl +:+ "ssh root@" +:+ py_str ip +:+ " -p " +:+ py_str port) ;;
  if update_ssh_config a then
    let runpod_config := generate_ssh_config ip port (PStr "root") (forward_agent a) in
    _ <- (fun w => write_text (ssh_config_path w) runpod_config w) ;;
    print "SSH config updated"
  else ret tt.

(** [RunPodManager.create_pod] *)
Definition create_pod (a : create_args) : M unit :=
  ids <- launch a ;;
  pod <- wait_for_ports (fst ids) ;;
  present a pod (snd ids).

(** [RunPodManager.terminate_pod] *)
Definition terminate_pod (pod_id : pyval) : M unit :=
  _ <- print ("Terminating pod " +:+ py_str pod_id +:+ "...") ;;
  res <- runpod_terminate_pod pod_id ;;
  print ("Pod terminated: " +:+ py_str res).

(** The commands of the CLI: [fire.Fire(RunPodManager)] builds the
    manager, then calls the method named on the command line. *)
Inductive command :=
| ListPods
| GetPod (pod_id : pyval)
| CreatePod (a : create_args)
| TerminatePod (pod_id : pyval).

Definition dispatch (c : command) : M unit :=
  match c with
  | ListPods => list_pods
  | GetPod pod_id => get_pod pod_id
  | CreatePod a => create_pod a
  | TerminatePod pod_id => terminate_pod pod_id
  end.

Definition main (c : command) : M unit :=
  _ <- __init__ ;;
  dispatch c.

(** ** Vocabulary of the properties *)

(** The world in which the waiter makes poll number [n + 1], when none of
    the [n] polls before it found ports: each of them was followed by
    the sleep of 5 seconds. *)
Fixpoint poll_world (pod_id : pyval) (n : nat) (w : world) : world :=
  match n with
  | O => w
  | S n' => poll_world pod_id n' (snd (sleep 5 (snd (runpod_get_pod pod_id w))))
  end.

(** Poll number [n + 1] of the waiter (counting from [n = 0]). *)
Definition poll (pod_id : pyval) (n : nat) (w : world) : result pyval * world :=
  runpod_get_pod pod_id (poll_world pod_id n w).

(** The poll was answered, by a pod without runtime or without ports. *)
Definition finds_no_ports (r : result pyval * world) : bool :=
  match r with
  | (Ok pod, _) => match no_ports_yet pod with Ok true => true | _ => false end
  | _ => false
  end.

(** The events of [n] polls that found no ports. *)
Fixpoint idle_polls (pod_id : pyval) (n : nat) : list event :=
  match n with
  | O => []
  | S n' => EGetPod pod_id :: ESleep 5 :: idle_polls pod_id n'
  end.

(** A computation only moves the world along the relation [R]. *)
Definition preserves (R : world -> world -> Prop) {A} (m : M A) : Prop :=
  forall w r w', m w = (r, w') -> R w w'.

(** The relations used as frames are preorders. *)
Class Frame (R : world -> world -> Prop) := {
  frame_refl : forall w, R w w;
  frame_trans : forall w1 w2 w3, R w1 w2 -> R w2 w3 -> R w1 w3
}.

(** The trace grows by events that satisfy [ok]. *)
Definition grows_by (ok : event -> bool) (w w' : world) : Prop :=
  exists evs, trace w' = (trace w ++ evs)%list /\ forallb ok evs = true.

Definition same_files (w w' : world) : Prop := files w' = files w.

End Manager.

(** The port collection of a pod's runtime descriptor, when the pod has
    one. *)
Definition ports_of (pod : pyval) : option pyval :=
  match pod with
  | PDict d =>
      match dict_lookup "runtime" d with
      | Some (PDict rt) => dict_lookup "ports" rt
      | _ => None
      end
  | _ => None
  end.

(** The pod has a runtime descriptor with a non-empty port collection. *)
Definition has_ports (pod : pyval) : Prop :=
  exists ports, ports_of pod = Some ports /\ py_truthy ports = true.

(** There is no port collection, or an empty one. *)
Definition no_ports (ports : option pyval) : Prop :=
  ports = None \/ ports = Some PNone \/ ports = Some (PList []).

(** The state Pending of the specification: the pod has no runtime
    descriptor, or a runtime descriptor without port collection or with
    an empty one. *)
Definition pending (pod : pyval) : Prop :=
  exists d, pod = PDict d /\
    (dict_lookup "runtime" d = None \/
     dict_lookup "runtime" d = Some PNone \/
     exists rt, dict_lookup "runtime" d = Some (PDict rt) /\ no_ports (dict_lookup "ports" rt)).

(** A port binding: a dictionary with the public-IP flag. *)
Definition binding (b : pyval) : Prop :=
  exists d flag, b = PDict d /\ dict_lookup "isIpPublic" d = Some flag.

(** [b.get(key)] for a binding [b]. *)
Definition field (b : pyval) (key : string) : pyval :=
  match py_get b key PNone with
  | Ok v => v
  | Raise _ => PNone
  end.

(** The public-IP flag of a binding is set. *)
Definition is_public (b : pyval) : bool :=
  match py_getitem b "isIpPublic" with
  | Ok flag => py_truthy flag
  | Raise _ => false
  end.

(** The machine descriptor of the pod [d] is missing or a dictionary,
    so that [list_pods] and [get_pod] can print its fields. *)
Definition machine_ok (d : list (string * pyval)) : Prop :=
  dict_lookup "machine" d = None \/ exists m, dict_lookup "machine" d = Some (PDict m).

(** The bindings [list_pods] and [get_pod] look at: those of the
    runtime descriptor of [d], none when the descriptor or its port
    collection is missing. *)
Definition listed_ports (d : list (string * pyval)) (l : list pyval) : Prop :=
  (dict_lookup "runtime" d = None /\ l = []) \/
  exists rt, dict_lookup "runtime" d = Some (PDict rt) /\
    ((dict_lookup "ports" rt = None /\ l = []) \/
     (dict_lookup "ports" rt = Some (PList l) /\ Forall binding l)).

(** A pod without runtime descriptor, or whose port collection has no
    public binding. *)
Definition lacks_public_ip (pod : pyval) : Prop :=
  exists d l, pod = PDict d /\ machine_ok d /\ listed_ports d l /\ List.filter is_public l = [].


(** A pod with exactly one public binding. *)
Definition has_one_public_ip (pod : pyval) : Prop :=
  exists d l b, pod = PDict d /\ machine_ok d /\ listed_ports d l /\ List.filter is_public l = [b].

(** ** A provider for examples

    One pod, ["pod-1"], is created on request; the answers to the polls
    are scripted, and when the script is over the pod is reported without
    runtime. *)
Record sim := Sim {
  sim_running : list pyval;
  sim_script : list pyval;
  sim_listing : pyval;
  sim_clock : Z
}.

Definition created_pod : pyval :=
  PDict [("id", PStr "pod-1"); ("machine", PDict [("podHostId", PStr "host-1")])].

Definition waiting_pod : pyval :=
  PDict [("id", PStr "pod-1"); ("desiredStatus", PStr "RUNNING"); ("runtime", PNone)].

(** A pod that is listed before it has a runtime descriptor. *)
Definition waiting_pod_listed : pyval :=
  PDict [("id", PStr "pod-2"); ("name", PStr "test"); ("desiredStatus", PStr "RUNNING")].

Definition is_pod_id (a b : pyval) : bool :=
  match a, b with
  | PStr x, PStr y => String.eqb x y
  | _, _ => false
  end.

#[global] Instance sim_provider : Provider sim := {
  provider_create_pod _ s :=
    (inr created_pod,
     Sim (PStr "pod-1" :: sim_running s) (sim_script s) (sim_listing s) (sim_clock s));
  provider_get_pod _ s :=
    match sim_script s with
    | [] => (inr waiting_pod, s)
    | pod :: rest => (inr pod, Sim (sim_running s) rest (sim_listing s) (sim_clock s))
    end;
  provider_get_pods s := (inr (sim_listing s), s);
  provider_terminate_pod pod_id s :=
    (inr PNone,
     Sim (List.filter (fun x => negb (is_pod_id pod_id x)) (sim_running s))
         (sim_script s) (sim_listing s) (sim_clock s));
  provider_elapse t s :=
    Sim (sim_running s) (sim_script s) (sim_listing s) (sim_clock s + t)
}.

(** The example of the port collection with one public binding. *)
Definition example_ports : pyval :=
  PList [PDict [("isIpPublic", PBool false); ("ip", PStr "10.0.0.7");
                ("privatePort", PInt 8888); ("publicPort", PInt 60001)];
         PDict [("isIpPublic", PBool true); ("ip", PStr "1.2.3.4");
                ("privatePort", PInt 22); ("publicPort", PInt 40022)]].

Definition pod_with_ports (ports : pyval) : pyval :=
  PDict [("id", PStr "pod-1"); ("desiredStatus", PStr "RUNNING");
         ("runtime", PDict [("ports", ports)])].

Definition sim_world (script : list pyval) (listing : pyval)
    (environ : gmap string string) : @world sim :=
  World environ ∅ "/home/user" ∅ (Sim [] script listing 0) [] None []
        {[ "/home/user/.ssh" ]}.

Definition with_key : gmap string string := {[ "RUNPOD_API_KEY" := "secret" ]}.

(** Ports are reported on the third poll. *)
Definition ready_third : @world sim :=
  sim_world [waiting_pod; waiting_pod; pod_with_ports example_ports] PNone with_key.

(** Ports are reported on the first poll; an SSH configuration file is
    there from an earlier run. *)
Definition ready_first : @world sim :=
  World with_key ∅ "/home/user" {[ "/home/user/.ssh/runpod_config" := "Host stale" ]}
        (Sim [] [pod_with_ports example_ports] PNone 0) [] None [] {[ "/home/user/.ssh" ]}.

(** A port collection with two public bindings, and one with none. *)
Definition two_public_ports : pyval :=
  PList [PDict [("isIpPublic", PBool true); ("ip", PStr "1.2.3.4"); ("publicPort", PInt 40022)];
         PDict [("isIpPublic", PBool true); ("ip", PStr "1.2.3.5"); ("publicPort", PInt 40023)]].

Definition no_public_ports : pyval :=
  PList [PDict [("isIpPublic", PBool false); ("ip", PStr "10.0.0.7"); ("publicPort", PInt 60001)]].

Definition ready_two_public : @world sim :=
  sim_world [pod_with_ports two_public_ports] PNone with_key.

(** The account has a running pod and one that is still provisioned. *)
Definition two_pods_listed : @world sim :=
  sim_world [waiting_pod_listed]
            (PList [pod_with_ports example_ports; waiting_pod_listed]) with_key.

(** No key in the environment nor in the [.env] file. *)
Definition no_key : @world sim := sim_world [] (PList []) ∅.

(** A pod without runtime, then one with an empty port collection, then
    ports. *)
Definition ready_after_empty : @world sim :=
  sim_world [waiting_pod; pod_with_ports (PList []); pod_with_ports example_ports]
            PNone with_key.


(** Ports are never reported. *)
Definition never_ready : @world sim := sim_world [] PNone with_key.

(** Ports are reported on poll 37, after 36 polls without. *)
Definition ready_on_37 : @world sim :=
  sim_world (replicate 36 waiting_pod ++ [pod_with_ports example_ports]) PNone with_key.

(** ** Further vocabulary *)

Definition is_print (e : event) : bool :=
  match e with EPrint _ => true | _ => false end.

(** A call to the [runpod] package. *)
Definition is_api_call (e : event) : bool :=
  match e with
  | ECreatePod _ | EGetPod _ | EGetPods | ETerminatePod _ => true
  | _ => false
  end.

(** The seconds slept along a trace. *)
Fixpoint slept (evs : list event) : Z :=
  match evs with
  | [] => 0
  | ESleep t :: evs' => t + slept evs'
  | _ :: evs' => slept evs'
  end.

(** The request [create_pod] sends for the parameters [a]. *)
Definition request_of (a : create_args) : create_request := {|
  req_name := name a;
  req_image_name := image_name a;
  req_gpu_type_id := gpu_type a;
  req_cloud_type := cloud_type a;
  req_gpu_count := gpu_count a;
  req_volume_in_gb := volume_in_gb a;
  req_container_disk_in_gb := container_disk_in_gb a;
  req_min_vcpu_count := min_vcpu_count a;
  req_min_memory_in_gb := min_memory_in_gb a;
  req_docker_args := startup_command (volume_mount_path a) (args a) (runtime a);
  req_env := env a;
  req_ports := "8888/http,22/tcp";
  req_volume_mount_path := volume_mount_path a;
  req_network_volume_id := network_volume_id a |}.

(** The lines [create_pod] prints before it sends the request. *)
Definition announcement (a : create_args) : list event :=
  [EPrint "Creating pod with:";
   EPrint ("  Name: " +:+ name a);
   EPrint ("  Image: " +:+ image_name a);
   EPrint ("  GPU Type: " +:+ gpu_type a);
   EPrint ("  Cloud Type: " +:+ cloud_type a);
   EPrint ("  GPU Count: " +:+ pretty (gpu_count a));
   EPrint ("  Time limit: " +:+ pretty (runtime a) +:+ " minutes");
   EPrint ("  Network volume ID: " +:+ network_volume_id a);
   EPrint ("  Pod start command: " +:+
           startup_command (volume_mount_path a) (args a) (runtime a))].

(** The value can be a key of a dictionary. *)
Definition hashable (v : pyval) : Prop :=
  match v with
  | PList _ | PDict _ => False
  | _ => True
  end.

(** The commands that only read from the provider, and the call each
    of them makes. *)
Definition read_call (c : command) : option event :=
  match c with
  | ListPods => Some EGetPods
  | GetPod pod_id => Some (EGetPod pod_id)
  | _ => None
  end.

(** The lines of the presenter for the public binding [b]. *)
Definition presented (pod_host_id b : pyval) : list event :=
  [EPrint "  Pod provisioned";
   EPrint ("  Public IP: " +:+ py_str (field b "ip"));
   EPrint ("  Public port: " +:+ py_str (field b "publicPort"));
   EPrint ("  basic SSH command:" +:+ nl +:+ "ssh " +:+ py_str pod_host_id +:+
           "@ssh.runpod.io");
   EPrint ("  full SSH command:" +:+ nl +:+ "ssh root@" +:+ py_str (field b "ip") +:+
           " -p " +:+ py_str (field b "publicPort"))].

Section FurtherVocabulary.
Context {P : Type} `{!Provider P}.

(** Between [w] and [w'] the home directory is the same and no file
    other than the SSH configuration file has changed. *)
Definition only_config_written (w w' : @world P) : Prop :=
  home w' = home w /\
  forall path, path <> ssh_config_path w -> files w' !! path = files w !! path.

(** Between [w] and [w'] neither the home directory nor any file has
    changed. *)
Definition nothing_written (w w' : @world P) : Prop :=
  home w' = home w /\ files w' = files w.

(** The world [__init__] leaves when it finds the key [key]. *)
Definition initialised (key : string) (w : @world P) : @world P :=
  World (dotenv w ∪ environ w) (dotenv w) (home w) (files w) (remote w) (trace w)
        (Some key) [] (dirs w).

(** How the last poll of a run decides the result. *)
Definition settles (last : result pyval * @world P) (r : result pyval) : Prop :=
  match last with
  | (Ok pod, _) =>
      match no_ports_yet pod with
      | Ok false => r = Ok pod
      | Ok true => r = Raise (RuntimeError "Pod provisioning failed")
      | Raise e => r = Raise e
      end
  | (Raise e, _) => r = Raise e
  end.

(** The world in which the provider receives the request. *)
Definition announced (a : create_args) (w : @world P) : @world P :=
  World (environ w) (dotenv w) (home w) (files w) (remote w)
        (trace w ++ announcement a ++ [ECreatePod (request_of a)])
        (api_key w) (pod_host_ids w) (dirs w).

(** The events [evs] are logged one after the other. *)
Fixpoint logs (evs : list event) (w : @world P) : @world P :=
  match evs with
  | [] => w
  | e :: evs' => logs evs' (log e w)
  end.

(** Between [w] and [w'] lines were printed and nothing else happened. *)
Definition only_printed (w w' : @world P) : Prop :=
  exists lines,
    trace w' = (trace w ++ map EPrint lines)%list /\
    files w' = files w /\ remote w' = remote w.

End FurtherVocabulary.

(** The provider fails on every call. *)
Record down := Down { down_calls : nat }.

#[global] Instance down_provider : Provider down := {
  provider_create_pod _ s := (inl "connection refused", Down (S (down_calls s)));
  provider_get_pod _ s := (inl "connection refused", Down (S (down_calls s)));
  provider_get_pods s := (inl "connection refused", Down (S (down_calls s)));
  provider_terminate_pod _ s := (inl "connection refused", Down (S (down_calls s)));
  provider_elapse _ s := s
}.

Definition down_world : @world down :=
  World with_key ∅ "/home/user" ∅ (Down 0) [] None [] {[ "/home/user/.ssh" ]}.

(** The pod has vanished when it is polled the second time. *)
Definition vanishes : @world sim :=
  sim_world [waiting_pod; PNone] PNone with_key.

(** A binding without the public-IP flag follows a regular one. *)
Definition flagless_ports : pyval :=
  PList [PDict [("isIpPublic", PBool true); ("ip", PStr "1.2.3.4"); ("publicPort", PInt 40022)];
         PDict [("ip", PStr "10.0.0.7"); ("publicPort", PInt 60001)]].

(** The key of the [.env] file differs from that of the environment. *)
Definition two_keys : @world sim :=
  World with_key {[ "RUNPOD_API_KEY" := "from-dotenv" ]} "/home/user" ∅
        (Sim [PStr "pod-1"] [] (PList []) 0) [] None [] {[ "/home/user/.ssh" ]}.

(** The key is set, to the empty text. *)
Definition empty_key : @world sim :=
  sim_world [] (PList []) {[ "RUNPOD_API_KEY" := "" ]}.

(** The account has two running pods. *)
Definition two_running : @world sim :=
  sim_world [] (PList [pod_with_ports example_ports; pod_with_ports example_ports]) with_key.

(** * Properties *)

(** ** The provisioning wait *)

Section Waiter.
Context {P : Type} `{!Provider P}.
Implicit Types (w : @world P) (pod pod_id : pyval) (i : Z).

Lemma wait_loop_ready pod_id i w w1 pod :
  runpod_get_pod pod_id w = (Ok pod, w1) ->
  no_ports_yet pod = Ok false ->
  wait_loop pod_id i w = (Ok pod, w1).
Proof.
  intros Hget Hno. simp wait_loop. rewrite Hget. simpl. now rewrite Hno.
Qed.

Lemma wait_loop_provider_error pod_id i w w1 e :
  runpod_get_pod pod_id w = (Raise e, w1) ->
  wait_loop pod_id i w = (Raise e, w1).
Proof.
  intros Hget. simp wait_loop. now rewrite Hget.
Qed.

Lemma wait_loop_shape_error pod_id i w w1 pod e :
  runpod_get_pod pod_id w = (Ok pod, w1) ->
  no_ports_yet pod = Raise e ->
  wait_loop pod_id i w = (Raise e, w1).
Proof.
  intros Hget Hno. simp wait_loop. rewrite Hget. simpl. now rewrite Hno.
Qed.

Lemma wait_loop_exhausted pod_id i w w1 pod :
  runpod_get_pod pod_id w = (Ok pod, w1) ->
  no_ports_yet pod = Ok true ->
  i > n_attempts ->
  wait_loop pod_id i w = (Raise (RuntimeError "Pod provisioning failed"), w1).
Proof.
  intros Hget Hno Hi. simp wait_loop. rewrite Hget. simpl. rewrite Hno. simpl.
  destruct (Z_gt_dec i n_attempts); [reflexivity | contradiction].
Qed.

Lemma wait_loop_retry pod_id i w w1 pod :
  runpod_get_pod pod_id w = (Ok pod, w1) ->
  no_ports_yet pod = Ok true ->
  i <= n_attempts ->
  wait_loop pod_id i w = wait_loop pod_id (i + 1) (snd (sleep 5 w1)).
Proof.
  intros Hget Hno Hi. rewrite (wait_loop_equation_1 pod_id i w).
  rewrite Hget. simpl. rewrite Hno. simpl.
  destruct (Z_gt_dec i n_attempts); [lia | reflexivity].
Qed.

Lemma finds_no_ports_inv (r : result pyval * @world P) :
  finds_no_ports r = true ->
  exists pod w1, r = (Ok pod, w1) /\ no_ports_yet pod = Ok true.
Proof.
  destruct r as [[pod|e] w1]; simpl; [|discriminate].
  destruct (no_ports_yet pod) as [[|]|] eqn:E; try discriminate. eauto.
Qed.

(** [k] polls without ports take the loop from counter [i] to [i + k]. *)
Lemma wait_loop_idle pod_id (k : nat) : forall i w,
  (forall j, (j < k)%nat -> finds_no_ports (poll pod_id j w) = true) ->
  i + Z.of_nat k <= n_attempts + 1 ->
  wait_loop pod_id i w = wait_loop pod_id (i + Z.of_nat k) (poll_world pod_id k w).
Proof.
  induction k as [|k IH]; intros i w Hidle Hk.
  - simpl. now rewrite Z.add_0_r.
  - destruct (finds_no_ports_inv _ (Hidle 0%nat ltac:(lia))) as (pod & w1 & Hget & Hno).
    unfold poll in Hget. simpl in Hget.
    rewrite (wait_loop_retry _ _ _ _ _ Hget Hno) by lia.
    simpl poll_world. rewrite Hget.
    rewrite IH.
    + f_equal. lia.
    + intros j Hj. specialize (Hidle (S j) ltac:(lia)).
      unfold poll in *. simpl in Hidle. now rewrite Hget in Hidle.
    + lia.
Qed.

Lemma no_ports_yet_has_ports pod :
  no_ports_yet pod = Ok false <-> has_ports pod.
Proof.
  unfold no_ports_yet, has_ports, ports_of. split.
  - destruct pod as [| | | | |d]; simpl; try discriminate.
    destruct (dict_lookup "runtime" d) as [[| | | | |rt]|]; simpl; try discriminate.
    destruct (dict_lookup "ports" rt) as [ports|]; simpl; try discriminate.
    intros H. exists ports. split; [reflexivity|].
    destruct (py_truthy ports); [reflexivity | discriminate].
  - intros (ports & Hp & Ht).
    destruct pod as [| | | | |d]; try discriminate. simpl.
    destruct (dict_lookup "runtime" d) as [[| | | | |rt]|]; try discriminate.
    simpl. rewrite Hp. simpl. now rewrite Ht.
Qed.

(** The waiter is ready at the first poll with ports, provided that poll
    is among the first [n_attempts + 1]. *)
Lemma wait_for_ports_ready pod_id (k : nat) w pod w1 :
  (forall j, (j < k)%nat -> finds_no_ports (poll pod_id j w) = true) ->
  poll pod_id k w = (Ok pod, w1) ->
  has_ports pod ->
  Z.of_nat k <= n_attempts ->
  wait_for_ports pod_id w = (Ok pod, w1).
Proof.
  intros Hidle Hpoll Hports Hk. unfold wait_for_ports.
  rewrite (wait_loop_idle pod_id k) by (auto; lia).
  apply wait_loop_ready; [exact Hpoll | now apply no_ports_yet_has_ports].
Qed.

(** The waiter fails when its first [n_attempts + 1] polls find no
    ports. *)
Lemma wait_for_ports_fails pod_id w :
  (forall j, (j <= Z.to_nat n_attempts)%nat -> finds_no_ports (poll pod_id j w) = true) ->
  wait_for_ports pod_id w =
    (Raise (RuntimeError "Pod provisioning failed"),
     snd (poll pod_id (Z.to_nat n_attempts) w)).
Proof.
  intros Hidle. unfold wait_for_ports.
  assert (Hn : Z.of_nat (Z.to_nat n_attempts) = n_attempts) by (unfold n_attempts; lia).
  remember (Z.to_nat n_attempts) as n eqn:En.
  rewrite (wait_loop_idle pod_id n); [| intros j Hj; apply Hidle; lia | lia].
  destruct (finds_no_ports_inv _ (Hidle n ltac:(lia))) as (pod & w1 & Hget & Hno).
  rewrite Hget. cbn [snd]. unfold poll in Hget.
  apply (wait_loop_exhausted _ _ _ _ _ Hget Hno). lia.
Qed.

Lemma call_error e op w w1 (x : exn) :
  call e op w = (Raise x, w1) -> exists msg, x = ProviderError msg.
Proof.
  unfold call. destruct (op _) as [[msg|v] p]; intros H; inversion H. eauto.
Qed.

Lemma no_ports_yet_error pod e :
  no_ports_yet pod = Raise e -> e = AttributeError.
Proof.
  unfold no_ports_yet.
  destruct pod as [| | | | |d]; simpl; try congruence.
  destruct (default PNone (dict_lookup "runtime" d)); simpl; congruence.
Qed.

Lemma poll_succ pod_id (j : nat) w pod w1 :
  runpod_get_pod pod_id w = (Ok pod, w1) ->
  poll pod_id (S j) w = poll pod_id j (snd (sleep 5 w1)).
Proof.
  intros Hget. unfold poll. simpl. now rewrite Hget.
Qed.

Lemma poll_zero_idle pod_id w pod w1 :
  runpod_get_pod pod_id w = (Ok pod, w1) ->
  no_ports_yet pod = Ok true ->
  finds_no_ports (poll pod_id 0 w) = true.
Proof.
  intros Hget Hno. unfold poll. cbn [poll_world]. rewrite Hget.
  unfold finds_no_ports. now rewrite Hno.
Qed.

(** When the loop, entered with counter [i], raises a [RuntimeError],
    the polls numbered [0] to [n_attempts + 1 - i] all found no ports,
    and the error is raised right after the last of them. *)
Lemma wait_loop_failed_inv pod_id (n : nat) : forall i w msg w',
  n = Z.to_nat (n_attempts + 1 - i) ->
  i <= n_attempts + 1 ->
  wait_loop pod_id i w = (Raise (RuntimeError msg), w') ->
  msg = "Pod provisioning failed" /\
  (forall j, (j <= n)%nat -> finds_no_ports (poll pod_id j w) = true) /\
  w' = snd (poll pod_id n w).
Proof.
  induction n as [|n IH]; intros i w msg w' Hn Hi Hrun;
    destruct (runpod_get_pod pod_id w) as [[pod|e] w1] eqn:Hget.
  - destruct (no_ports_yet pod) as [[|]|e] eqn:Hno.
    + rewrite (wait_loop_exhausted _ _ _ _ _ Hget Hno) in Hrun by lia.
      inversion Hrun; subst. repeat split.
      * intros j Hj. assert (j = 0%nat) as -> by lia.
        eapply poll_zero_idle; eassumption.
      * unfold poll. cbn [poll_world]. now rewrite Hget.
    + rewrite (wait_loop_ready _ _ _ _ _ Hget Hno) in Hrun. discriminate.
    + rewrite (wait_loop_shape_error _ _ _ _ _ _ Hget Hno) in Hrun.
      apply no_ports_yet_error in Hno. congruence.
  - rewrite (wait_loop_provider_error _ _ _ _ _ Hget) in Hrun.
    destruct (call_error _ _ _ _ _ Hget) as [m ->]. discriminate.
  - destruct (no_ports_yet pod) as [[|]|e] eqn:Hno.
    + rewrite (wait_loop_retry _ _ _ _ _ Hget Hno) in Hrun by lia.
      apply IH in Hrun; [|lia|lia]. destruct Hrun as (Hmsg & Hidle & Hw).
      repeat split; [exact Hmsg| |].
      * intros [|j] Hj.
        -- eapply poll_zero_idle; eassumption.
        -- rewrite (poll_succ _ _ _ _ _ Hget). apply Hidle. lia.
      * now rewrite (poll_succ _ _ _ _ _ Hget).
    + rewrite (wait_loop_ready _ _ _ _ _ Hget Hno) in Hrun. discriminate.
    + rewrite (wait_loop_shape_error _ _ _ _ _ _ Hget Hno) in Hrun.
      apply no_ports_yet_error in Hno. congruence.
  - rewrite (wait_loop_provider_error _ _ _ _ _ Hget) in Hrun.
    destruct (call_error _ _ _ _ _ Hget) as [m ->]. discriminate.
Qed.

(** The waiter fails exactly when its first [n_attempts + 1] polls find
    no ports. *)
Lemma wait_for_ports_fails_iff pod_id w :
  (exists msg w', wait_for_ports pod_id w = (Raise (RuntimeError msg), w')) <->
  (forall j, (j <= Z.to_nat n_attempts)%nat -> finds_no_ports (poll pod_id j w) = true).
Proof.
  split.
  - intros (msg & w' & Hrun).
    apply (wait_loop_failed_inv pod_id (Z.to_nat n_attempts)) in Hrun.
    + tauto.
    + f_equal; lia.
    + unfold n_attempts. lia.
  - intros Hidle. rewrite (wait_for_ports_fails _ _ Hidle). eauto.
Qed.

(** *** What a poll and a sleep leave behind *)

Lemma call_trace e op w :
  trace (snd (call e op w)) = (trace w ++ [e])%list.
Proof. unfold call. simpl. now destruct (op _) as [[msg|v] p]. Qed.

Lemma call_files e op w : files (snd (call e op w)) = files w.
Proof. unfold call. simpl. now destruct (op _) as [[msg|v] p]. Qed.

Lemma sleep_trace t w : trace (snd (sleep t w)) = (trace w ++ [ESleep t])%list.
Proof. reflexivity. Qed.

Lemma sleep_files t w : files (snd (sleep t w)) = files w.
Proof. reflexivity. Qed.

Lemma poll_world_trace pod_id (n : nat) : forall w,
  trace (poll_world pod_id n w) = (trace w ++ idle_polls pod_id n)%list.
Proof.
  induction n as [|n IH]; intros w; cbn [poll_world idle_polls].
  - now rewrite app_nil_r.
  - rewrite IH, sleep_trace. unfold runpod_get_pod. rewrite call_trace.
    now rewrite <- !app_assoc.
Qed.

Lemma poll_world_files pod_id (n : nat) : forall w,
  files (poll_world pod_id n w) = files w.
Proof.
  induction n as [|n IH]; intros w; cbn [poll_world]; [reflexivity|].
  rewrite IH, sleep_files. unfold runpod_get_pod. apply call_files.
Qed.

Lemma poll_trace pod_id (n : nat) w :
  trace (snd (poll pod_id n w)) = (trace w ++ idle_polls pod_id n ++ [EGetPod pod_id])%list.
Proof.
  unfold poll, runpod_get_pod. rewrite call_trace, poll_world_trace.
  now rewrite <- app_assoc.
Qed.

Lemma poll_files pod_id (n : nat) w : files (snd (poll pod_id n w)) = files w.
Proof.
  unfold poll, runpod_get_pod. now rewrite call_files, poll_world_files.
Qed.

Lemma idle_polls_count pod_id (n : nat) :
  length (List.filter is_get_pod (idle_polls pod_id n)) = n /\
  length (List.filter is_sleep (idle_polls pod_id n)) = n /\
  forallb (sleep_lasts 5) (idle_polls pod_id n) = true.
Proof.
  induction n as [|n (IH1 & IH2 & IH3)]; simpl; [done|].
  rewrite IH1, IH2. repeat split. exact IH3.
Qed.

Lemma pending_no_ports_yet pod : pending pod -> no_ports_yet pod = Ok true.
Proof.
  intros (d & -> & [Hrt | [Hrt | (rt & Hrt & Hports)]]);
    unfold no_ports_yet; simpl; rewrite Hrt; simpl; try reflexivity.
  destruct Hports as [-> | [-> | ->]]; reflexivity.
Qed.

Lemma pending_finds_no_ports pod_id (j : nat) w :
  (exists pod w1, poll pod_id j w = (Ok pod, w1) /\ pending pod) ->
  finds_no_ports (poll pod_id j w) = true.
Proof.
  intros (pod & w1 & -> & Hpod). unfold finds_no_ports.
  now rewrite (pending_no_ports_yet pod Hpod).
Qed.

(** C4: the waiter is Ready on the first poll whose answer has a runtime
    descriptor with a non-empty port collection.  When each poll before
    poll [k + 1] was answered by a pending pod (no runtime descriptor,
    or no or an empty port collection) and poll [k + 1], which is made,
    is answered by a pod with ports, [wait_for_ports] returns that pod
    in the world right after that poll: the trace ends with that poll,
    so no poll follows.  The value of the attempt counter plays no part:
    in the world of that poll the loop leaves with the pod for every
    counter [i]. *)
Theorem ready_on_first_poll_with_ports pod_id (k : nat) w pod w1 :
  (forall j, (j < k)%nat ->
     exists pod_j w_j, poll pod_id j w = (Ok pod_j, w_j) /\ pending pod_j) ->
  poll pod_id k w = (Ok pod, w1) ->
  has_ports pod ->
  Z.of_nat k <= n_attempts ->
  wait_for_ports pod_id w = (Ok pod, w1) /\
  trace w1 = (trace w ++ idle_polls pod_id k ++ [EGetPod pod_id])%list /\
  length (List.filter is_get_pod (idle_polls pod_id k ++ [EGetPod pod_id])) = S k /\
  (forall i, wait_loop pod_id i (poll_world pod_id k w) = (Ok pod, w1)).
Proof.
  intros Hpending Hpoll Hports Hk.
  assert (Hidle : forall j, (j < k)%nat -> finds_no_ports (poll pod_id j w) = true)
    by (intros j Hj; apply pending_finds_no_ports, Hpending, Hj).
  split; [|split; [|split]].
  - eapply wait_for_ports_ready; eassumption.
  - pose proof (poll_trace pod_id k w) as Ht. now rewrite Hpoll in Ht.
  - rewrite List.filter_app, length_app. simpl.
    destruct (idle_polls_count pod_id k) as [-> _]. lia.
  - intros i. apply wait_loop_ready; [exact Hpoll|].
    now apply no_ports_yet_has_ports.
Qed.

End Waiter.

Lemma ready_on_first_poll_with_ports_witness :
  wait_for_ports (PStr "pod-1") ready_after_empty =
    (Ok (pod_with_ports example_ports), snd (poll (PStr "pod-1") 2 ready_after_empty)) /\
  List.filter is_get_pod (trace (snd (poll (PStr "pod-1") 2 ready_after_empty))) =
    [EGetPod (PStr "pod-1"); EGetPod (PStr "pod-1"); EGetPod (PStr "pod-1")].
Proof.
  destruct (ready_on_first_poll_with_ports (PStr "pod-1") 2 ready_after_empty
              (pod_with_ports example_ports) (snd (poll (PStr "pod-1") 2 ready_after_empty)))
    as (Hrun & Htrace & _).
  - intros [|[|j]] Hj; [| |lia].
    + exists waiting_pod, (snd (poll (PStr "pod-1") 0 ready_after_empty)).
      split; [vm_compute; reflexivity|].
      eexists. split; [reflexivity|]. right. left. reflexivity.
    + exists (pod_with_ports (PList [])), (snd (poll (PStr "pod-1") 1 ready_after_empty)).
      split; [vm_compute; reflexivity|].
      eexists. split; [reflexivity|]. right. right. eexists. split; [reflexivity|].
      right. right. reflexivity.
  - vm_compute. reflexivity.
  - exists example_ports. split; reflexivity.
  - unfold n_attempts. lia.
  - split; [exact Hrun|]. rewrite Htrace. reflexivity.
Defined.

(** C1: the waiter gives up on poll 37, one poll after [n_attempts].  A
    provider that never reports ports sees 37 polls and 36 sleeps, each
    of 5 seconds, the first poll coming before any sleep; a provider
    that reports ports on poll 37, after 36 polls without, is waited for
    successfully. *)
Theorem waiter_fails_on_poll_37 :
  (exists w', wait_for_ports (PStr "pod-1") never_ready =
                (Raise (RuntimeError "Pod provisioning failed"), w') /\
              length (List.filter is_get_pod (trace w')) = 37%nat /\
              length (List.filter is_sleep (trace w')) = 36%nat /\
              forallb (sleep_lasts 5) (trace w') = true /\
              (exists rest, trace w' = EGetPod (PStr "pod-1") :: rest)) /\
  (exists w', wait_for_ports (PStr "pod-1") ready_on_37 =
                (Ok (pod_with_ports example_ports), w') /\
              length (List.filter is_get_pod (trace w')) = 37%nat).
Proof.
  split.
  - exists (snd (wait_for_ports (PStr "pod-1") never_ready)).
    split; [vm_compute; reflexivity|].
    repeat split; try (vm_compute; reflexivity).
    eexists. vm_compute. reflexivity.
  - exists (snd (wait_for_ports (PStr "pod-1") ready_on_37)).
    split; vm_compute; reflexivity.
Qed.

(** ** Frames: what a computation leaves alone *)

Section Frames.
Context {P : Type} `{!Provider P}.
Implicit Types (w : @world P) (R : @world P -> @world P -> Prop).

#[global] Instance grows_by_frame ok : Frame (@grows_by P ok).
Proof.
  split.
  - intros w. exists []. now rewrite app_nil_r.
  - intros w1 w2 w3 (e1 & H1 & Hok1) (e2 & H2 & Hok2). exists (e1 ++ e2)%list.
    rewrite H2, H1, <- app_assoc, forallb_app, Hok1, Hok2. now split.
Qed.

#[global] Instance same_files_frame : Frame (@same_files P).
Proof. split; unfold same_files; congruence. Qed.

Lemma preserves_ret R `{!Frame R} {A} (a : A) : preserves R (ret a).
Proof. intros w r w' H. inversion H. apply frame_refl. Qed.

Lemma preserves_raise R `{!Frame R} {A} e : preserves R (@raise P A e).
Proof. intros w r w' H. inversion H. apply frame_refl. Qed.

Lemma preserves_lift R `{!Frame R} {A} (x : result A) : preserves R (lift x).
Proof. intros w r w' H. inversion H. apply frame_refl. Qed.

Lemma preserves_bind R `{!Frame R} {A B} (m : M A) (k : A -> M B) :
  preserves R m -> (forall a, preserves R (k a)) -> preserves R (bind m k).
Proof.
  intros Hm Hk w r w'. unfold bind.
  destruct (m w) as [[a|e] w1] eqn:E; intros H.
  - eapply frame_trans; [eapply Hm, E | eapply Hk, H].
  - inversion H; subst. eapply Hm, E.
Qed.

Lemma grows_log ok e w : ok e = true -> grows_by ok w (log e w).
Proof. intros He. exists [e]. simpl. now rewrite He. Qed.

Lemma grows_print ok text : ok (EPrint text) = true -> preserves (@grows_by P ok) (print text).
Proof. intros He w r w' H. inversion H. now apply grows_log. Qed.

Lemma grows_sleep ok t : ok (ESleep t) = true -> preserves (@grows_by P ok) (sleep t).
Proof. intros He w r w' H. inversion H. exists [ESleep t]. simpl. now rewrite He. Qed.

Lemma grows_call ok e op : ok e = true -> preserves (@grows_by P ok) (call e op).
Proof.
  intros He w r w' H. exists [e]. simpl. rewrite He. split; [|reflexivity].
  rewrite <- (call_trace e op w), H. reflexivity.
Qed.

Lemma grows_write ok (path : @world P -> string) data :
  (forall p, ok (EWriteText p data) = true) ->
  preserves (@grows_by P ok) (fun w => write_text (path w) data w).
Proof.
  intros He w r w' H. unfold write_text in H.
  destruct (decide (dirname (path w) ∈ dirs w)); inversion H; subst.
  - exists [EWriteText (path w) data]. simpl. now rewrite He.
  - exists []. rewrite app_nil_r. now split.
Qed.

Lemma grows_silent ok {A} (m : M A) :
  (forall w, trace (snd (m w)) = trace w) -> preserves (@grows_by P ok) m.
Proof.
  intros Hm w r w' H. exists []. rewrite app_nil_r, <- (Hm w), H. now split.
Qed.

Lemma files_kept {A} (m : M A) :
  (forall w, files (snd (m w)) = files w) -> preserves (@same_files P) m.
Proof. intros Hm w r w' H. unfold same_files. now rewrite <- (Hm w), H. Qed.

(** The loop keeps whatever its poll and its sleep keep. *)
Lemma preserves_wait_loop R `{!Frame R} pod_id :
  preserves R (runpod_get_pod pod_id) ->
  preserves R (sleep 5) ->
  forall i, preserves R (wait_loop pod_id i).
Proof.
  intros Hget Hsleep i w r w'.
  remember (Z.to_nat (n_attempts + 1 - i)) as n eqn:En.
  revert i w En. induction n as [|n IH]; intros i w En;
    destruct (runpod_get_pod pod_id w) as [[pod|e] w1] eqn:Eget;
    try (rewrite (wait_loop_provider_error _ _ _ _ _ Eget);
         intros H; inversion H; subst; eapply Hget, Eget);
    destruct (no_ports_yet pod) as [[|]|e] eqn:Eno;
    try (rewrite (wait_loop_ready _ _ _ _ _ Eget Eno);
         intros H; inversion H; subst; eapply Hget, Eget);
    try (rewrite (wait_loop_shape_error _ _ _ _ _ _ Eget Eno);
         intros H; inversion H; subst; eapply Hget, Eget).
  - rewrite (wait_loop_exhausted _ _ _ _ _ Eget Eno) by lia.
    intros H; inversion H; subst; eapply Hget, Eget.
  - destruct (Z_gt_dec i n_attempts) as [Hi|Hi].
    + rewrite (wait_loop_exhausted _ _ _ _ _ Eget Eno) by lia.
      intros H; inversion H; subst; eapply Hget, Eget.
    + rewrite (wait_loop_retry _ _ _ _ _ Eget Eno) by lia. intros H.
      eapply frame_trans; [eapply Hget, Eget|].
      eapply frame_trans; [eapply (Hsleep w1), surjective_pairing|].
      eapply (IH (i + 1)); [lia | exact H].
Qed.

End Frames.

Create HintDb frame.
#[global] Hint Resolve preserves_ret preserves_raise preserves_lift
  grows_print grows_sleep grows_call grows_write : frame.
#[global] Hint Extern 1 (_ = true) => reflexivity : frame.
#[global] Hint Extern 1 (Frame _) => typeclasses eauto : frame.

(** Takes a computation apart along its binds and branches. *)
Ltac frame_step :=
  match goal with
  | |- preserves _ (bind _ _) => apply preserves_bind; [typeclasses eauto| |intros ?]
  | |- preserves _ (if ?b then _ else _) => destruct b
  | |- preserves _ (match ?x with _ => _ end) => destruct x
  | |- preserves _ _ => solve [eauto with frame]
  end.

(** ** The text of the SSH configuration *)

Section Text.
#[local] Arguments String.append : simpl nomatch.
#[local] Arguments Ascii.eqb : simpl nomatch.
#[local] Arguments is_space : simpl nomatch.
#[local] Arguments is_blank : simpl nomatch.

Lemma one_line_app a b : one_line a -> one_line b -> one_line (a +:+ b).
Proof.
  unfold one_line. intros Ha Hb. induction a as [|c a IH]; simpl in *; [exact Hb|].
  destruct (Ascii.eqb "010" c); simpl in *; [discriminate | auto].
Qed.

Lemma split_lines_cons (l : string) (ls : list string) :
  one_line l -> ls <> [] ->
  split_lines (l +:+ nl +:+ join nl ls) = l :: split_lines (join nl ls).
Proof.
  unfold one_line. intros Hl Hls. induction l as [|c l IH]; simpl in *; [reflexivity|].
  rewrite Ascii.eqb_sym.
  destruct (Ascii.eqb "010" c); simpl in *; [discriminate|].
  now rewrite IH.
Qed.

Lemma split_lines_one (l : string) : one_line l -> split_lines l = [l].
Proof.
  unfold one_line. intros Hl. induction l as [|c l IH]; simpl in *; [reflexivity|].
  rewrite Ascii.eqb_sym.
  destruct (Ascii.eqb "010" c); simpl in *; [discriminate|].
  now rewrite IH.
Qed.

Lemma split_lines_join (ls : list string) :
  ls <> [] -> Forall one_line ls -> split_lines (join nl ls) = ls.
Proof.
  intros Hne Hall. induction Hall as [|l ls Hl Hls IH]; [congruence|].
  destruct ls as [|l' ls'].
  - simpl. now apply split_lines_one.
  - change (join nl (l :: l' :: ls')) with (l +:+ nl +:+ join nl (l' :: ls')).
    rewrite split_lines_cons by (auto; congruence).
    f_equal. apply IH. congruence.
Qed.

Lemma solid_char c s : is_space c = false -> solid (String c s).
Proof. unfold solid. intros Hc. simpl. rewrite Hc. now destruct (rstrip s). Qed.

Lemma solid_cons c s : solid s -> solid (String c s).
Proof. unfold solid. simpl. now destruct (rstrip s). Qed.

Lemma solid_app a b : solid b -> solid (a +:+ b).
Proof. intros Hb. induction a; simpl; [exact Hb | now apply solid_cons]. Qed.

Lemma visible_not_space c : is_visible c = true -> is_space c = false.
Proof.
  unfold is_visible, is_space. cbv zeta. generalize (N_of_ascii c). intros n H.
  apply andb_true_iff in H as [H1 H2]. apply N.leb_le in H1, H2.
  repeat match goal with
         | |- context [(?a <=? ?b)%N] => destruct (N.leb_spec a b)
         | |- context [(?a =? ?b)%N] => destruct (N.eqb_spec a b)
         end; simpl; try reflexivity; lia.
Qed.

Lemma one_word_no_space s : one_word s -> no_char is_space s = true.
Proof.
  intros [_ Hs]. induction s as [|c s IH]; [reflexivity|]. cbn [no_char] in *.
  apply andb_true_iff in Hs as [Hc Hs]. apply negb_true_iff, negb_false_iff in Hc.
  now rewrite (visible_not_space c Hc), IH.
Qed.

Lemma solid_word s t : one_word s -> solid (s +:+ t).
Proof.
  intros Hs. pose proof (one_word_no_space s Hs) as Hno. destruct Hs as [Hne _].
  destruct s as [|c s]; [congruence|]. simpl in *.
  apply solid_char. now destruct (is_space c).
Qed.

Lemma rstrip_cons c s : solid s -> rstrip (String c s) = String c (rstrip s).
Proof. unfold solid. simpl. now destruct (rstrip s). Qed.

Lemma rstrip_app a b : solid b -> rstrip (a +:+ b) = a +:+ rstrip b.
Proof.
  intros Hb. induction a as [|c a IH]; simpl; [reflexivity|].
  rewrite <- IH. apply rstrip_cons. now apply solid_app.
Qed.

Lemma rstrip_word s t : no_char is_space s = true -> rstrip (s +:+ t) = s +:+ rstrip t.
Proof.
  induction s as [|c s IH]; simpl; [reflexivity|]. intros H.
  destruct (is_space c) eqn:Hc; simpl in H; [discriminate|].
  rewrite IH by exact H. now destruct (s +:+ rstrip t).
Qed.

Lemma append_empty_r s : s +:+ "" = s.
Proof. induction s; simpl; congruence. Qed.

#[local] Arguments rstrip : simpl never.

Ltac solve_solid :=
  repeat first
    [ apply solid_char; reflexivity
    | apply solid_word; assumption
    | apply solid_cons
    | apply solid_app ].

Lemma one_word_one_line s : one_word s -> one_line s.
Proof.
  unfold one_line. intros Hs. apply one_word_no_space in Hs.
  induction s as [|c s IH]; simpl in *; [reflexivity|].
  destruct (is_space c) eqn:Hc; simpl in Hs; [discriminate|].
  rewrite IH by exact Hs.
  destruct (Ascii.eqb_spec "010" c) as [<-|_]; [discriminate | reflexivity].
Qed.

(** The text [generate_ssh_config] returns, line by line. *)
Lemma generate_ssh_config_lines ip port user fa :
  one_line (py_str ip) -> one_line (py_str user) -> one_word (py_str port) ->
  generate_ssh_config ip port user fa =
    join nl (["Host runpod"; "  HostName " +:+ py_str ip; "  User " +:+ py_str user;
              "  Port " +:+ py_str port] ++ (if fa then ["  ForwardAgent yes"] else []))%list.
Proof.
  intros Hip Huser Hport. pose proof (one_word_one_line _ Hport) as Hport1.
  unfold generate_ssh_config.
  set (text := nl +:+ _).
  assert (Htext : text = join nl
            [""; "            Host runpod"; "              HostName " +:+ py_str ip;
             "              User " +:+ py_str user; "              Port " +:+ py_str port;
             "              " +:+ (if fa then "ForwardAgent yes" else "");
             "        "]).
  { subst text. simpl. reflexivity. }
  rewrite Htext. unfold dedent. rewrite split_lines_join.
  2: discriminate.
  2: { repeat constructor; try (apply one_line_app; [reflexivity | assumption]).
       now destruct fa. }
  destruct fa; simpl; unfold strip; simpl.
  - repeat (rewrite rstrip_cons by solve_solid).
    rewrite (rstrip_app (py_str ip)) by solve_solid.
    repeat (rewrite rstrip_cons by solve_solid).
    rewrite (rstrip_app (py_str user)) by solve_solid.
    repeat (rewrite rstrip_cons by solve_solid).
    rewrite (rstrip_app (py_str port)) by solve_solid.
    repeat (rewrite rstrip_cons by solve_solid).
    reflexivity.
  - repeat (rewrite rstrip_cons by solve_solid).
    rewrite (rstrip_app (py_str ip)) by solve_solid.
    repeat (rewrite rstrip_cons by solve_solid).
    rewrite (rstrip_app (py_str user)) by solve_solid.
    repeat (rewrite rstrip_cons by solve_solid).
    rewrite rstrip_word by apply one_word_no_space, Hport.
    change (rstrip (String "010" (String "010" ""))) with "".
    now rewrite append_empty_r.
Qed.
End Text.

(** ** [create_pod] after the wait *)

#[global] Arguments generate_ssh_config : simpl never.

Section CreatePod.
Context {P : Type} `{!Provider P}.
Implicit Types (w : @world P) (pod b : pyval) (l : list pyval) (a : create_args).

Lemma binding_flag b :
  binding b -> exists flag, py_getitem b "isIpPublic" = Ok flag /\ is_public b = py_truthy flag.
Proof.
  intros (d & flag & -> & Hflag). exists flag. unfold is_public. simpl. now rewrite Hflag.
Qed.

Lemma binding_get b key : binding b -> py_get b key PNone = Ok (field b key).
Proof. now intros (d & flag & -> & _). Qed.

Lemma filter_public_bindings l :
  Forall binding l -> filter_public l = Ok (List.filter is_public l).
Proof.
  induction 1 as [|b l Hb _ IH]; simpl; [reflexivity|].
  destruct (binding_flag b Hb) as (flag & -> & ->). simpl. rewrite IH. simpl.
  now destruct (py_truthy flag).
Qed.

Lemma provisioned_public_ip_ok pod l :
  ports_of pod = Some (PList l) -> Forall binding l ->
  provisioned_public_ip pod = Ok (List.filter is_public l).
Proof.
  unfold ports_of, provisioned_public_ip. intros Hports Hl.
  destruct pod as [| | | | |d]; try discriminate. simpl.
  destruct (dict_lookup "runtime" d) as [[| | | | |rt]|]; try discriminate. simpl.
  rewrite Hports. simpl. now apply filter_public_bindings.
Qed.

Lemma the_public_ip_one b msg : the_public_ip [b] msg = Ok b.
Proof. reflexivity. Qed.

Lemma the_public_ip_wrong l msg :
  length l <> 1%nat -> the_public_ip l msg = Raise (AssertionError msg).
Proof. destruct l as [|b [|b' l]]; simpl; congruence. Qed.

(** With a number of public bindings other than one, the presenter
    stops at the assertion: it has printed one line and nothing else. *)
Lemma present_wrong_count a pod pod_host_id w l :
  ports_of pod = Some (PList l) -> Forall binding l ->
  length (List.filter is_public l) <> 1%nat ->
  present a pod pod_host_id w =
    (Raise (AssertionError ("Expected 1 public IP, got " +:+
                            pretty (Z.of_nat (length (List.filter is_public l))))),
     log (EPrint "  Pod provisioned") w).
Proof.
  intros Hports Hl Hn. unfold present, bind, print, lift.
  rewrite (provisioned_public_ip_ok _ _ Hports Hl).
  now rewrite the_public_ip_wrong.
Qed.

Lemma logs_trace evs : forall w,
  logs evs w =
    World (environ w) (dotenv w) (home w) (files w) (remote w) (trace w ++ evs)
          (api_key w) (pod_host_ids w) (dirs w).
Proof.
  induction evs as [|e evs IH]; intros w.
  - destruct w. cbn [logs trace environ dotenv home files remote api_key pod_host_ids].
    now rewrite app_nil_r.
  - cbn [logs]. rewrite IH. unfold log.
    cbn [trace environ dotenv home files remote api_key pod_host_ids].
    now rewrite <- app_assoc.
Qed.

Lemma bind_print {A} text (k : unit -> M A) w :
  bind (print text) k w = k tt (log (EPrint text) w).
Proof. reflexivity. Qed.

Lemma bind_call {A} e op (k : pyval -> M A) w :
  bind (call e op) k w =
    match op (remote w) with
    | (inr v, p) => k v (set_remote p (log e w))
    | (inl msg, p) => (Raise (ProviderError msg), set_remote p (log e w))
    end.
Proof. unfold bind, call. cbn [remote log]. now destruct (op (remote w)) as [[msg|v] p]. Qed.

Lemma bind_lift_ok {A B} (v : A) (k : A -> M B) w : bind (lift (Ok v)) k w = k v w.
Proof. reflexivity. Qed.

Lemma contains_char_app_r c (s1 s2 : string) :
  contains_char c s2 = true -> contains_char c (s1 +:+ s2) = true.
Proof.
  intros H2. induction s1 as [|x s1 IH]; [exact H2|].
  change (String x s1 +:+ s2) with (String x (s1 +:+ s2)). cbn [contains_char].
  rewrite IH. apply orb_true_r.
Qed.

Lemma dirname_app h tail :
  contains_char "/" tail = true -> dirname (h +:+ tail) = h +:+ dirname tail.
Proof.
  intros Htail. induction h as [|x h IH]; [reflexivity|].
  change (String x h +:+ tail) with (String x (h +:+ tail)). cbn [dirname].
  rewrite (contains_char_app_r "/" h tail Htail), IH. reflexivity.
Qed.

(** The directory of the SSH configuration file is [.ssh] under the home
    directory. *)
Lemma dirname_ssh_config_path w : dirname (ssh_config_path w) = ssh_dir w.
Proof. unfold ssh_config_path, ssh_dir. now rewrite dirname_app. Qed.

(** The presenter up to the write of the configuration. *)
Lemma present_unfold a pod pod_host_id w l b :
  ports_of pod = Some (PList l) -> Forall binding l ->
  List.filter is_public l = [b] ->
  present a pod pod_host_id w =
    (if update_ssh_config a
     then bind (fun w0 => write_text (ssh_config_path w0)
                            (generate_ssh_config (field b "ip") (field b "publicPort")
                               (PStr "root") (forward_agent a)) w0)
               (fun _ => print "SSH config updated")
     else ret tt) (logs (presented pod_host_id b) w).
Proof.
  intros Hports Hl Hb.
  assert (Hbind : binding b).
  { eapply (proj1 (List.Forall_forall _ _) Hl), List.filter_In. rewrite Hb. now left. }
  unfold present. rewrite bind_print.
  rewrite (provisioned_public_ip_ok _ _ Hports Hl), Hb, bind_lift_ok.
  rewrite the_public_ip_one, bind_lift_ok.
  rewrite !(binding_get _ _ Hbind), !bind_lift_ok, !bind_print.
  reflexivity.
Qed.

(** The events of the presenter for the public binding [b], when it has
    nothing to write or the directory of the configuration exists. *)
Lemma present_one_public a pod pod_host_id w l b :
  ports_of pod = Some (PList l) -> Forall binding l ->
  List.filter is_public l = [b] ->
  update_ssh_config a = false \/ ssh_dir w ∈ dirs w ->
  exists w',
    present a pod pod_host_id w = (Ok tt, w') /\
    trace w' =
      (trace w ++ presented pod_host_id b ++
       (if update_ssh_config a
        then [EWriteText (ssh_config_path w)
                (generate_ssh_config (field b "ip") (field b "publicPort") (PStr "root")
                   (forward_agent a));
              EPrint "SSH config updated"]
        else []))%list /\
    files w' =
      (if update_ssh_config a
       then <[ssh_config_path w :=
                generate_ssh_config (field b "ip") (field b "publicPort") (PStr "root")
                  (forward_agent a)]> (files w)
       else files w).
Proof.
  intros Hports Hl Hb Hcan. rewrite (present_unfold _ _ _ _ _ _ Hports Hl Hb).
  rewrite logs_trace. destruct (update_ssh_config a).
  - destruct Hcan as [|Hdir]; [discriminate|].
    unfold bind, write_text. rewrite dirname_ssh_config_path.
    unfold ssh_dir, ssh_config_path in *.
    cbn [dirs home files trace environ dotenv remote api_key pod_host_ids].
    destruct (decide (home w +:+ "/.ssh" ∈ dirs w)) as [_|Hno]; [|contradiction].
    eexists. split; [reflexivity|].
    cbn [log trace files]. rewrite <- !app_assoc. split; reflexivity.
  - eexists. split; [reflexivity|]. cbn [trace files]. rewrite app_nil_r.
    split; reflexivity.
Qed.

(** Without the directory of the configuration the write fails, after
    the lines of the presenter. *)
Lemma present_without_directory a pod pod_host_id w l b :
  ports_of pod = Some (PList l) -> Forall binding l ->
  List.filter is_public l = [b] ->
  update_ssh_config a = true ->
  ssh_dir w ∉ dirs w ->
  exists w',
    present a pod pod_host_id w = (Raise (FileNotFoundError (ssh_config_path w)), w') /\
    trace w' = (trace w ++ presented pod_host_id b)%list /\
    files w' = files w.
Proof.
  intros Hports Hl Hb Hupd Hdir. rewrite (present_unfold _ _ _ _ _ _ Hports Hl Hb).
  rewrite logs_trace, Hupd.
  unfold bind, write_text. rewrite dirname_ssh_config_path.
  unfold ssh_dir, ssh_config_path in *.
  cbn [dirs home files trace environ dotenv remote api_key pod_host_ids].
  destruct (decide (home w +:+ "/.ssh" ∈ dirs w)) as [Hin|_]; [contradiction|].
  eexists. split; [reflexivity|]. split; reflexivity.
Qed.

(** *** Frames of the phases of [create_pod] *)

Lemma keeps_print text : preserves (@same_files P) (print text).
Proof. now apply files_kept. Qed.

Lemma keeps_sleep t : preserves (@same_files P) (sleep t).
Proof. now apply files_kept. Qed.

Lemma keeps_call e op : preserves (@same_files P) (call e op).
Proof. apply files_kept. intros w. apply call_files. Qed.

Lemma keeps_store pod_id pod_host_id :
  preserves (@same_files P) (store_pod_host_id pod_id pod_host_id).
Proof. apply files_kept. intros w. now destruct pod_id. Qed.

Lemma grows_store ok pod_id pod_host_id :
  preserves (@grows_by P ok) (store_pod_host_id pod_id pod_host_id).
Proof. apply grows_silent. intros w. now destruct pod_id. Qed.

Hint Resolve keeps_print keeps_sleep keeps_call keeps_store grows_store : frame.
Hint Unfold runpod_create_pod runpod_get_pod : frame.

Lemma launch_keeps_files a : preserves (@same_files P) (launch a).
Proof. unfold launch. cbv zeta. repeat frame_step. Qed.

Lemma wait_keeps_files pod_id : preserves (@same_files P) (wait_for_ports pod_id).
Proof.
  unfold wait_for_ports.
  apply preserves_wait_loop; [typeclasses eauto | apply keeps_call | apply keeps_sleep].
Qed.

(** [create_pod] only prints, creates, polls, sleeps 5 seconds and
    writes: its trace grows by such events, however it ends. *)
Lemma create_pod_grows ok a :
  (forall text, ok (EPrint text) = true) ->
  (forall req, ok (ECreatePod req) = true) ->
  (forall pod_id, ok (EGetPod pod_id) = true) ->
  ok (ESleep 5) = true ->
  (forall path data, ok (EWriteText path data) = true) ->
  preserves (@grows_by P ok) (create_pod a).
Proof.
  intros Hprint Hcreate Hget Hsleep Hwrite. unfold create_pod.
  apply preserves_bind; [typeclasses eauto | | intros ids].
  { unfold launch. cbv zeta. repeat frame_step. }
  apply preserves_bind; [typeclasses eauto | | intros pod].
  { unfold wait_for_ports.
    apply preserves_wait_loop; [typeclasses eauto | eauto with frame..]. }
  unfold present. repeat frame_step.
Qed.

Lemma create_pod_run a w ids w1 :
  launch a w = (Ok ids, w1) ->
  create_pod a w =
    match wait_for_ports (fst ids) w1 with
    | (Ok pod, w2) => present a pod (snd ids) w2
    | (Raise e, w2) => (Raise e, w2)
    end.
Proof. intros Hlaunch. unfold create_pod, bind. now rewrite Hlaunch. Qed.

(** C7: when the waiter gives up, [create_pod] ends with its error,
    which is the provisioning failure raised right after poll 37.  Since
    [create_pod] was called, the trace has grown by events none of which
    is a termination call: after the creation, the provider has only
    seen polls and the passing of time.  No file was written. *)
Theorem provisioning_timeout_is_fatal a w ids w1 msg w2 :
  launch a w = (Ok ids, w1) ->
  wait_for_ports (fst ids) w1 = (Raise (RuntimeError msg), w2) ->
  create_pod a w = (Raise (RuntimeError "Pod provisioning failed"), w2) /\
  w2 = snd (poll (fst ids) 36 w1) /\
  trace w2 = (trace w1 ++ idle_polls (fst ids) 36 ++ [EGetPod (fst ids)])%list /\
  grows_by not_terminate w w2 /\
  files w2 = files w.
Proof.
  intros Hlaunch Hwait.
  assert (Hrun : create_pod a w = (Raise (RuntimeError msg), w2)).
  { rewrite (create_pod_run _ _ _ _ Hlaunch). now rewrite Hwait. }
  pose proof Hwait as Hinv.
  apply (wait_loop_failed_inv (fst ids) 36) in Hinv; [|reflexivity|unfold n_attempts; lia].
  destruct Hinv as (-> & Hidle & ->).
  split; [exact Hrun|]. split; [reflexivity|]. split; [apply poll_trace|]. split.
  - eapply (create_pod_grows not_terminate a); try reflexivity. exact Hrun.
  - rewrite poll_files. eapply launch_keeps_files, Hlaunch.
Qed.

(** C5: once the waiter is Ready with a pod whose port collection has
    no public binding or several, [create_pod] raises the assertion
    error, which is not the provisioning failure.  It ends in the world
    of the Ready poll plus the line that the pod is provisioned: no
    further poll, no line with an IP or a port, no write, and the files
    are those [create_pod] started with. *)
Theorem wrong_public_count_is_integrity_error a w ids w1 pod w2 l :
  launch a w = (Ok ids, w1) ->
  wait_for_ports (fst ids) w1 = (Ok pod, w2) ->
  ports_of pod = Some (PList l) ->
  Forall binding l ->
  length (List.filter is_public l) <> 1%nat ->
  exists msg w',
    create_pod a w = (Raise (AssertionError msg), w') /\
    msg = "Expected 1 public IP, got " +:+ pretty (Z.of_nat (length (List.filter is_public l))) /\
    AssertionError msg <> RuntimeError "Pod provisioning failed" /\
    trace w' = (trace w2 ++ [EPrint "  Pod provisioned"])%list /\
    remote w' = remote w2 /\
    files w' = files w.
Proof.
  intros Hlaunch Hwait Hports Hl Hn. do 2 eexists.
  rewrite (create_pod_run _ _ _ _ Hlaunch), Hwait.
  rewrite (present_wrong_count _ _ _ _ _ Hports Hl Hn).
  split; [reflexivity|]. split; [reflexivity|]. split; [discriminate|].
  split; [reflexivity|]. split; [reflexivity|]. simpl.
  transitivity (files w1).
  - eapply wait_keeps_files, Hwait.
  - eapply launch_keeps_files, Hlaunch.
Qed.

(** C6: for a pod whose port collection has exactly one public binding
    [b], the presenter extracts [b] and prints the IP and the external
    port of [b]; it then succeeds unless it has to write the SSH
    configuration into a directory that does not exist. *)
Theorem presenter_yields_public_endpoint a pod pod_host_id w l b :
  ports_of pod = Some (PList l) ->
  Forall binding l ->
  List.filter is_public l = [b] ->
  provisioned_public_ip pod = Ok [b] /\
  exists r w' rest,
    present a pod pod_host_id w = (r, w') /\
    trace w' =
      (trace w ++
       EPrint "  Pod provisioned" ::
       EPrint ("  Public IP: " +:+ py_str (field b "ip")) ::
       EPrint ("  Public port: " +:+ py_str (field b "publicPort")) :: rest)%list /\
    (update_ssh_config a = false \/ ssh_dir w ∈ dirs w -> r = Ok tt).
Proof.
  intros Hports Hl Hb. split.
  - now rewrite (provisioned_public_ip_ok _ _ Hports Hl), Hb.
  - destruct (update_ssh_config a) eqn:Hupd;
      [destruct (decide (ssh_dir w ∈ dirs w)) as [Hdir|Hdir]|].
    + destruct (present_one_public a pod pod_host_id w l b Hports Hl Hb) as (w' & Hrun & Ht & _);
        [now right|].
      exists (Ok tt), w'. eexists. split; [exact Hrun|]. split; [|reflexivity].
      rewrite Ht. reflexivity.
    + destruct (present_without_directory a pod pod_host_id w l b Hports Hl Hb Hupd Hdir)
        as (w' & Hrun & Ht & _).
      eexists _, w', _. split; [exact Hrun|]. split; [rewrite Ht; reflexivity|].
      intros [?|?]; [discriminate | contradiction].
    + destruct (present_one_public a pod pod_host_id w l b Hports Hl Hb) as (w' & Hrun & Ht & _);
        [left; exact Hupd|].
      exists (Ok tt), w'. eexists. split; [exact Hrun|]. split; [|reflexivity].
      rewrite Ht. reflexivity.
Qed.

(** C9: when the SSH configuration is to be updated and its directory
    exists, the presenter writes, at the path of the configuration file,
    the lines [Host], [HostName], [User], [Port] and, exactly when agent
    forwarding is requested, [ForwardAgent yes].  The file holds that
    text afterwards, whatever it held before; other files are
    untouched.  The IP is a text of one line and the port a word of
    visible ASCII characters. *)
Theorem ssh_config_written_exactly a pod pod_host_id w l b :
  ports_of pod = Some (PList l) ->
  Forall binding l ->
  List.filter is_public l = [b] ->
  update_ssh_config a = true ->
  ssh_dir w ∈ dirs w ->
  one_line (py_str (field b "ip")) ->
  one_word (py_str (field b "publicPort")) ->
  let fragment :=
    join nl (["Host runpod";
              "  HostName " +:+ py_str (field b "ip");
              "  User root";
              "  Port " +:+ py_str (field b "publicPort")] ++
             (if forward_agent a then ["  ForwardAgent yes"] else []))%list in
  exists w',
    present a pod pod_host_id w = (Ok tt, w') /\
    generate_ssh_config (field b "ip") (field b "publicPort") (PStr "root") (forward_agent a)
      = fragment /\
    List.filter is_write (trace w') =
      (List.filter is_write (trace w) ++ [EWriteText (ssh_config_path w) fragment])%list /\
    files w' !! ssh_config_path w = Some fragment /\
    (forall path, path <> ssh_config_path w -> files w' !! path = files w !! path).
Proof.
  intros Hports Hl Hb Hupd Hdir Hip Hport fragment.
  destruct (present_one_public a pod pod_host_id w l b Hports Hl Hb) as (w' & Hrun & Ht & Hf);
    [now right|].
  rewrite Hupd in Ht, Hf.
  assert (Hcfg : generate_ssh_config (field b "ip") (field b "publicPort") (PStr "root")
                   (forward_agent a) = fragment).
  { apply generate_ssh_config_lines; [exact Hip | reflexivity | exact Hport]. }
  rewrite Hcfg in Ht, Hf.
  exists w'. split; [exact Hrun|]. split; [exact Hcfg|]. split; [|split].
  - rewrite Ht. rewrite !List.filter_app. cbn [presented List.filter is_write app].
    reflexivity.
  - rewrite Hf. apply lookup_insert_eq.
  - intros path Hne. rewrite Hf. now apply lookup_insert_ne.
Qed.

(** When the directory of the configuration is missing, the write
    raises and no file is changed. *)
Lemma ssh_config_needs_directory a pod pod_host_id w l b :
  ports_of pod = Some (PList l) ->
  Forall binding l ->
  List.filter is_public l = [b] ->
  update_ssh_config a = true ->
  ssh_dir w ∉ dirs w ->
  exists w',
    present a pod pod_host_id w = (Raise (FileNotFoundError (ssh_config_path w)), w') /\
    files w' = files w.
Proof.
  intros Hports Hl Hb Hupd Hdir.
  destruct (present_without_directory a pod pod_host_id w l b Hports Hl Hb Hupd Hdir)
    as (w' & Hrun & _ & Hf).
  eauto.
Qed.

End CreatePod.

Lemma ssh_dir_of_ready_first : ssh_dir ready_first ∈ dirs ready_first.
Proof.
  change (("/home/user/.ssh" : string) ∈ ({[ "/home/user/.ssh" ]} : gset string)).
  now apply elem_of_singleton.
Defined.

Lemma provisioning_timeout_is_fatal_witness :
  exists w2,
    create_pod default_args never_ready =
      (Raise (RuntimeError "Pod provisioning failed"), w2) /\
    grows_by not_terminate never_ready w2 /\
    sim_running (remote w2) = [PStr "pod-1"].
Proof.
  exists (snd (wait_for_ports (PStr "pod-1") (snd (launch default_args never_ready)))).
  destruct (provisioning_timeout_is_fatal default_args never_ready
              (PStr "pod-1", PStr "host-1") (snd (launch default_args never_ready))
              "Pod provisioning failed"
              (snd (wait_for_ports (PStr "pod-1") (snd (launch default_args never_ready)))))
    as (Hrun & _ & _ & Hgrow & _).
  - vm_compute. reflexivity.
  - vm_compute. reflexivity.
  - split; [exact Hrun|]. split; [exact Hgrow | vm_compute; reflexivity].
Defined.

Lemma wrong_public_count_is_integrity_error_witness :
  exists w',
    create_pod default_args ready_two_public =
      (Raise (AssertionError "Expected 1 public IP, got 2"), w') /\
    List.filter is_write (trace w') = [] /\
    List.filter is_get_pod (trace w') = [EGetPod (PStr "pod-1")].
Proof.
  destruct (wrong_public_count_is_integrity_error default_args ready_two_public
              (PStr "pod-1", PStr "host-1") (snd (launch default_args ready_two_public))
              (pod_with_ports two_public_ports)
              (snd (wait_for_ports (PStr "pod-1") (snd (launch default_args ready_two_public))))
              [PDict [("isIpPublic", PBool true); ("ip", PStr "1.2.3.4"); ("publicPort", PInt 40022)];
               PDict [("isIpPublic", PBool true); ("ip", PStr "1.2.3.5"); ("publicPort", PInt 40023)]])
    as (msg & w' & Hrun & -> & _ & Htrace & _).
  - vm_compute. reflexivity.
  - vm_compute. reflexivity.
  - reflexivity.
  - repeat constructor; do 2 eexists; split; reflexivity.
  - simpl. lia.
  - exists w'. split; [exact Hrun|]. rewrite Htrace. split; vm_compute; reflexivity.
Defined.

Lemma presenter_yields_public_endpoint_witness :
  exists w' rest,
    present default_args (pod_with_ports example_ports) (PStr "host-1") ready_first = (Ok tt, w') /\
    trace w' = EPrint "  Pod provisioned" :: EPrint "  Public IP: 1.2.3.4" ::
               EPrint "  Public port: 40022" :: rest.
Proof.
  destruct (presenter_yields_public_endpoint default_args (pod_with_ports example_ports)
              (PStr "host-1") ready_first
              [PDict [("isIpPublic", PBool false); ("ip", PStr "10.0.0.7");
                      ("privatePort", PInt 8888); ("publicPort", PInt 60001)];
               PDict [("isIpPublic", PBool true); ("ip", PStr "1.2.3.4");
                      ("privatePort", PInt 22); ("publicPort", PInt 40022)]]
              (PDict [("isIpPublic", PBool true); ("ip", PStr "1.2.3.4");
                      ("privatePort", PInt 22); ("publicPort", PInt 40022)]))
    as (_ & r & w' & rest & Hrun & Htrace & Hok).
  - reflexivity.
  - repeat constructor; do 2 eexists; split; reflexivity.
  - reflexivity.
  - rewrite Hok in Hrun by (right; exact ssh_dir_of_ready_first).
    exists w', rest. split; [exact Hrun|]. rewrite Htrace. reflexivity.
Defined.

Lemma ssh_config_written_exactly_witness :
  exists w',
    present default_args (pod_with_ports example_ports) (PStr "host-1") ready_first = (Ok tt, w') /\
    files ready_first !! "/home/user/.ssh/runpod_config" = Some "Host stale" /\
    files w' !! "/home/user/.ssh/runpod_config" =
      Some ("Host runpod" +:+ nl +:+ "  HostName 1.2.3.4" +:+ nl +:+ "  User root" +:+ nl +:+
            "  Port 40022").
Proof.
  destruct (ssh_config_written_exactly default_args (pod_with_ports example_ports)
              (PStr "host-1") ready_first
              [PDict [("isIpPublic", PBool false); ("ip", PStr "10.0.0.7");
                      ("privatePort", PInt 8888); ("publicPort", PInt 60001)];
               PDict [("isIpPublic", PBool true); ("ip", PStr "1.2.3.4");
                      ("privatePort", PInt 22); ("publicPort", PInt 40022)]]
              (PDict [("isIpPublic", PBool true); ("ip", PStr "1.2.3.4");
                      ("privatePort", PInt 22); ("publicPort", PInt 40022)]))
    as (w' & Hrun & _ & _ & Hfile & _).
  - reflexivity.
  - repeat constructor; do 2 eexists; split; reflexivity.
  - reflexivity.
  - reflexivity.
  - exact ssh_dir_of_ready_first.
  - reflexivity.
  - split; [discriminate | reflexivity].
  - exists w'. split; [exact Hrun|]. split; [reflexivity|]. exact Hfile.
Defined.

(** ** Credentials *)

Section Credentials.
Context {P : Type} `{!Provider P}.
Implicit Types (w : @world P).

Lemma init_silent w r w' :
  __init__ w = (r, w') -> trace w' = trace w /\ remote w' = remote w /\ files w' = files w.
Proof.
  unfold __init__, bind, load_dotenv, getenv, set_api_key. simpl.
  destruct (_ !! "RUNPOD_API_KEY") as [[|c k]|]; intros H; inversion H; auto.
Qed.

(** C8: without the key in the environment and in the [.env] file, every
    command of the CLI ends with the configuration error, and nothing
    was sent to the provider: the trace and the remote state are those
    before the run.  In any case the manager is built before the command
    runs, and building it makes no call. *)
Theorem missing_key_fails_before_any_call (c : command) w :
  environ w !! "RUNPOD_API_KEY" = None ->
  dotenv w !! "RUNPOD_API_KEY" = None ->
  (exists w',
     main c w = (Raise (ValueError
                   "RUNPOD_API_KEY not found in environment. Set it in your .env file."), w') /\
     trace w' = trace w /\ remote w' = remote w) /\
  (forall w0 r w1, __init__ w0 = (r, w1) -> trace w1 = trace w0 /\ remote w1 = remote w0) /\
  main c = bind __init__ (fun _ => dispatch c).
Proof.
  intros Henv Hdot. split; [|split; [|reflexivity]].
  - unfold main, bind, __init__, bind, load_dotenv, getenv, set_api_key. simpl.
    assert ((dotenv w ∪ environ w) !! "RUNPOD_API_KEY" = None) as ->
      by (apply lookup_union_None; auto).
    eexists. split; [reflexivity|]. split; reflexivity.
  - intros w0 r w1 H. apply init_silent in H. tauto.
Qed.

End Credentials.

Lemma missing_key_fails_before_any_call_witness :
  exists w',
    main (CreatePod default_args) no_key =
      (Raise (ValueError
         "RUNPOD_API_KEY not found in environment. Set it in your .env file."), w') /\
    trace w' = [] /\ sim_running (remote w') = [].
Proof.
  destruct (missing_key_fails_before_any_call (CreatePod default_args) no_key)
    as ((w' & Hrun & Htrace & Hremote) & _).
  - reflexivity.
  - reflexivity.
  - exists w'. split; [exact Hrun|]. rewrite Htrace, Hremote. split; reflexivity.
Defined.

(** ** The startup command *)

Lemma py_max_max a b : py_max a b = Z.max a b.
Proof. unfold py_max. destruct (Z.gtb_spec b a); lia. Qed.

Lemma append_assoc_r (a b c : string) : (a +:+ b) +:+ c = a +:+ b +:+ c.
Proof.
  induction a as [|x a IH]; [reflexivity|].
  change (String x ((a +:+ b) +:+ c) = String x (a +:+ b +:+ c)). now rewrite IH.
Qed.

(** C2: the startup command is a text before, [sleep], the decimal
    number [max (runtime * 60) 20], and a text after, where the texts
    before and after do not depend on [runtime].  With the default
    mount path and no arguments, a runtime of 1 gives [sleep 60] and a
    runtime of 0 gives [sleep 20]. *)
Theorem sleep_is_runtime_with_floor (volume_mount_path args : string) :
  (exists before after, forall runtime,
     startup_command volume_mount_path args runtime =
       before +:+ "sleep " +:+ pretty (Z.max (runtime * 60) 20) +:+ after) /\
  startup_command "/ssd" "" 1 = "/bin/bash -c '/ssd/start.sh; sleep 60; /ssd/terminate.sh'" /\
  startup_command "/ssd" "" 0 = "/bin/bash -c '/ssd/start.sh; sleep 20; /ssd/terminate.sh'".
Proof.
  split; [|split; vm_compute; reflexivity].
  exists ("/bin/bash -c '" +:+ volume_mount_path +:+ "/start.sh;" +:+
          (if py_truthy (PStr args) then " " +:+ args +:+ ";" else "") +:+ " "),
         ("; " +:+ volume_mount_path +:+ "/terminate.sh'").
  intros runtime. unfold startup_command. rewrite py_max_max.
  rewrite !append_assoc_r. reflexivity.
Qed.

(** C3: with arguments, the startup command is one [/bin/bash -c]
    invocation of a quoted script that runs [start.sh] of the mount
    path, the arguments as given, the sleep and [terminate.sh] of the
    mount path, in this order; without arguments the sleep comes right
    after [start.sh]. *)
Theorem startup_command_order (volume_mount_path args : string) (runtime : Z) :
  args <> "" ->
  startup_command volume_mount_path args runtime =
    "/bin/bash -c '" +:+
      volume_mount_path +:+ "/start.sh;" +:+
      " " +:+ args +:+ ";" +:+
      " sleep " +:+ pretty (Z.max (runtime * 60) 20) +:+ "; " +:+
      volume_mount_path +:+ "/terminate.sh" +:+
    "'" /\
  startup_command volume_mount_path "" runtime =
    "/bin/bash -c '" +:+
      volume_mount_path +:+ "/start.sh;" +:+
      " sleep " +:+ pretty (Z.max (runtime * 60) 20) +:+ "; " +:+
      volume_mount_path +:+ "/terminate.sh" +:+
    "'".
Proof.
  intros Hargs. unfold startup_command. rewrite py_max_max. split.
  - destruct args as [|c args]; [congruence|]. cbn [py_truthy String.eqb negb].
    rewrite !append_assoc_r. reflexivity.
  - cbn [py_truthy String.eqb negb]. reflexivity.
Qed.

Lemma startup_command_order_witness :
  startup_command "/ssd" "python my_script.py" 120 =
    "/bin/bash -c '/ssd/start.sh; python my_script.py; sleep 7200; /ssd/terminate.sh'".
Proof.
  destruct (startup_command_order "/ssd" "python my_script.py" 120) as [Hcmd _].
  - discriminate.
  - rewrite Hcmd. vm_compute. reflexivity.
Defined.

(** ** Listing and inspecting pods *)

Section Listing.
Context {P : Type} `{!Provider P}.
Implicit Types (w : @world P) (pod : pyval) (d : list (string * pyval)).

Lemma machine_field_ok d key :
  machine_ok d -> exists v, machine_field (PDict d) key = Ok v.
Proof.
  unfold machine_field. simpl. intros [-> | (m & ->)]; simpl; eauto.
Qed.

Lemma listed_public_ip_ok d l :
  listed_ports d l -> listed_public_ip (PDict d) = Ok (List.filter is_public l).
Proof.
  unfold listed_public_ip. simpl.
  intros [(-> & ->) | (rt & -> & Hports)]; simpl; [reflexivity|].
  destruct Hports as [(-> & ->) | (-> & Hl)]; simpl; [reflexivity|].
  now apply filter_public_bindings.
Qed.

(** A pod with a missing runtime descriptor or without public binding
    stops the loop of [list_pods] at the assertion, whatever its status,
    after the lines that do not need the ports. *)
Lemma list_pods_item_asserts (i : nat) pod w :
  lacks_public_ip pod ->
  exists w' lines,
    list_pods_item i pod w = (Raise (AssertionError ""), w') /\
    trace w' = (trace w ++ map EPrint lines)%list /\ length lines = 5%nat.
Proof.
  intros (d & l & -> & Hm & Hl & Hnone).
  unfold list_pods_item, bind, print, lift.
  destruct (machine_field_ok d "gpuDisplayName" Hm) as (v & ->).
  rewrite (listed_public_ip_ok _ _ Hl), Hnone. simpl.
  eexists. eexists [_; _; _; _; _]. split; [reflexivity|]. simpl.
  rewrite <- !app_assoc. split; reflexivity.
Qed.

Lemma list_pods_item_shows (i : nat) pod w :
  has_one_public_ip pod -> exists w', list_pods_item i pod w = (Ok tt, w').
Proof.
  intros (d & l & b & -> & Hm & Hl & Hone).
  assert (Hb : binding b).
  { assert (Hin : In b l) by (eapply List.filter_In; rewrite Hone; now left).
    destruct Hl as [(_ & ->) | (rt & _ & [(_ & ->) | (_ & Hall)])]; try contradiction.
    exact (proj1 (List.Forall_forall _ _) Hall b Hin). }
  unfold list_pods_item, bind, print, lift.
  destruct (machine_field_ok d "gpuDisplayName" Hm) as (v & ->).
  rewrite (listed_public_ip_ok _ _ Hl), Hone. simpl.
  rewrite !(binding_get _ _ Hb). eauto.
Qed.

Lemma for_enumerate_asserts pre : forall (i : nat) pod rest w,
  Forall has_one_public_ip pre ->
  lacks_public_ip pod ->
  exists w', for_enumerate list_pods_item i (pre ++ pod :: rest) w =
               (Raise (AssertionError ""), w').
Proof.
  induction pre as [|x pre IH]; intros i pod rest w Hpre Hpod; simpl.
  - unfold bind. destruct (list_pods_item_asserts i pod w Hpod) as (w' & lines & -> & _).
    eauto.
  - inversion Hpre as [|? ? Hx Hpre']; subst. unfold bind.
    destruct (list_pods_item_shows i x w Hx) as (w1 & ->).
    now apply IH.
Qed.

(** A pod without the key [runtime], or whose port collection has no
    public binding, makes [get_pod] fail with the assertion error, and
    makes [list_pods] fail with it once the pods listed before it have
    been shown. *)
Lemma listing_asserts_public_port w pod_id pre pod rest p1 p2 :
  provider_get_pods (remote w) = (inr (PList (pre ++ pod :: rest)), p1) ->
  provider_get_pod pod_id (remote w) = (inr pod, p2) ->
  Forall has_one_public_ip pre ->
  lacks_public_ip pod ->
  (exists w', list_pods w = (Raise (AssertionError ""), w')) /\
  (exists w', get_pod pod_id w = (Raise (AssertionError ""), w') /\
              forall text, In (EPrint text) (trace w') -> In (EPrint text) (trace w) \/
                String.prefix "  Public" text = false) /\
  (forall i w0, exists w', list_pods_item i pod w0 = (Raise (AssertionError ""), w')).
Proof.
  intros Hlist Hget Hpre Hpod. split; [|split].
  - unfold list_pods, bind, runpod_get_pods, call. simpl. rewrite Hlist. simpl.
    now apply for_enumerate_asserts.
  - destruct Hpod as (d & l & -> & Hm & Hl & Hnone).
    unfold get_pod, bind, runpod_get_pod, call, print, lift. simpl. rewrite Hget. simpl.
    destruct (machine_field_ok d "gpuDisplayName" Hm) as (v1 & ->).
    destruct (machine_field_ok d "podHostId" Hm) as (v2 & ->).
    rewrite (listed_public_ip_ok _ _ Hl), Hnone. simpl.
    eexists. split; [reflexivity|]. simpl. intros text Hin.
    rewrite !in_app_iff in Hin. simpl in Hin.
    destruct Hin as [[[[[[[Hin|[Hin|[]]]|[Hin|[]]]|[Hin|[]]]|[Hin|[]]]|[Hin|[]]]|[Hin|[]]]|[Hin|[]]];
      try (left; exact Hin); try discriminate; right; inversion Hin; reflexivity.
  - intros i w0. destruct (list_pods_item_asserts i pod w0 Hpod) as (w' & _ & Hrun & _).
    eauto.
Qed.





End Listing.

Lemma listing_asserts_public_port_witness :
  (exists w', list_pods two_pods_listed = (Raise (AssertionError ""), w')) /\
  (exists w', get_pod (PStr "pod-2") two_pods_listed = (Raise (AssertionError ""), w')).
Proof.
  destruct (listing_asserts_public_port two_pods_listed (PStr "pod-2")
              [pod_with_ports example_ports] waiting_pod_listed []
              (remote two_pods_listed)
              (Sim [] [] (PList [pod_with_ports example_ports; waiting_pod_listed]) 0))
    as (Hlist & (w' & Hget & _) & _).
  - reflexivity.
  - reflexivity.
  - constructor; [|constructor].
    eexists _, _, _. split; [reflexivity|]. split; [left; reflexivity|]. split.
    + right. eexists. split; [reflexivity|]. right. split; [reflexivity|].
      repeat constructor; do 2 eexists; split; reflexivity.
    + reflexivity.
  - eexists _, []. split; [reflexivity|]. split; [left; reflexivity|]. split.
    + left. split; reflexivity.
    + reflexivity.
  - split; [exact Hlist | eauto].
Defined.

(** * Further properties *)

(** ** Every run of the waiter *)

Section WaiterRuns.
Context {P : Type} `{!Provider P}.
Implicit Types (w : @world P) (pod pod_id : pyval) (i : Z).

(** A run of the loop entered with counter [i]: some [k] polls without
    ports, each followed by its sleep, then one poll that decides. *)
Lemma wait_loop_run pod_id (n : nat) : forall i w r w',
  n = Z.to_nat (n_attempts + 1 - i) ->
  i <= n_attempts + 1 ->
  wait_loop pod_id i w = (r, w') ->
  exists k : nat,
    (k <= n)%nat /\
    (forall j, (j < k)%nat -> finds_no_ports (poll pod_id j w) = true) /\
    w' = snd (poll pod_id k w) /\
    settles (poll pod_id k w) r.
Proof.
  induction n as [|n IH]; intros i w r w' Hn Hi Hrun;
    destruct (runpod_get_pod pod_id w) as [[pod|e] w1] eqn:Hget.
  1, 3: destruct (no_ports_yet pod) as [[|]|e] eqn:Hno.
  all: try (rewrite (wait_loop_ready _ _ _ _ _ Hget Hno) in Hrun).
  all: try (rewrite (wait_loop_shape_error _ _ _ _ _ _ Hget Hno) in Hrun).
  all: try (rewrite (wait_loop_provider_error _ _ _ _ _ Hget) in Hrun).
  all: try (inversion Hrun; subst; exists 0%nat;
            split; [lia|]; split; [intros j Hj; lia|];
            unfold poll, settles; cbn [poll_world]; rewrite Hget; cbn [snd];
            rewrite ?Hno; split; reflexivity).
  - rewrite (wait_loop_exhausted _ _ _ _ _ Hget Hno) in Hrun by lia.
    inversion Hrun; subst. exists 0%nat.
    split; [lia|]. split; [intros j Hj; lia|].
    unfold poll, settles. cbn [poll_world]. rewrite Hget, Hno. split; reflexivity.
  - rewrite (wait_loop_retry _ _ _ _ _ Hget Hno) in Hrun by lia.
    apply IH in Hrun; [|lia|lia]. destruct Hrun as (k & Hk & Hidle & Hw & Hlast).
    exists (S k). split; [lia|]. rewrite (poll_succ _ _ _ _ _ Hget). split; [|tauto].
    intros [|j] Hj.
    + eapply poll_zero_idle; eassumption.
    + rewrite (poll_succ _ _ _ _ _ Hget). apply Hidle. lia.
Qed.

Lemma slept_idle_polls pod_id (k : nat) :
  slept (idle_polls pod_id k ++ [EGetPod pod_id]) = 5 * Z.of_nat k.
Proof. induction k as [|k IH]; [reflexivity|]. cbn [idle_polls app slept]. lia. Qed.

(** X1: however the provider answers and however the wait ends, the
    waiter has made some [k <= 36] polls each followed by a sleep of 5
    seconds and then one last poll: at most 37 polls, at most 180
    seconds of sleep, the last event is a poll, and no file is
    touched. *)
Theorem wait_stays_within_budget pod_id w r w' :
  wait_for_ports pod_id w = (r, w') ->
  exists k : nat,
    (k <= 36)%nat /\
    trace w' = (trace w ++ idle_polls pod_id k ++ [EGetPod pod_id])%list /\
    slept (idle_polls pod_id k ++ [EGetPod pod_id]) = 5 * Z.of_nat k /\
    slept (idle_polls pod_id k ++ [EGetPod pod_id]) <= 180 /\
    length (List.filter is_get_pod (idle_polls pod_id k ++ [EGetPod pod_id])) = S k /\
    files w' = files w.
Proof.
  intros Hrun.
  apply (wait_loop_run pod_id 36) in Hrun; [|reflexivity|unfold n_attempts; lia].
  destruct Hrun as (k & Hk & _ & -> & _). exists k.
  split; [exact Hk|]. split; [apply poll_trace|].
  rewrite slept_idle_polls. split; [reflexivity|]. split; [lia|]. split.
  - rewrite List.filter_app, length_app. simpl.
    destruct (idle_polls_count pod_id k) as [-> _]. lia.
  - apply poll_files.
Qed.

Lemma wait_returns_pod_with_ports pod_id w pod w' :
  wait_for_ports pod_id w = (Ok pod, w') -> has_ports pod.
Proof.
  intros Hrun.
  apply (wait_loop_run pod_id 36) in Hrun; [|reflexivity|unfold n_attempts; lia].
  destruct Hrun as (k & _ & _ & _ & Hlast). unfold settles in Hlast.
  destruct (poll pod_id k w) as [[pod'|e] w1]; [|discriminate].
  destruct (no_ports_yet pod') as [[|]|e] eqn:Hno; try discriminate.
  inversion Hlast; subst pod'. now apply no_ports_yet_has_ports.
Qed.

(** X2: a pod the waiter returns has a runtime descriptor with a
    non-empty port collection, so the subscripts [pod["runtime"]] and
    [["ports"]] that follow the loop in [create_pod] cannot fail. *)
Theorem ready_pod_has_ports pod_id w pod w' :
  wait_for_ports pod_id w = (Ok pod, w') ->
  has_ports pod /\
  exists rt ports,
    py_getitem pod "runtime" = Ok rt /\
    py_getitem rt "ports" = Ok ports /\
    py_truthy ports = true.
Proof.
  intros Hrun. pose proof (wait_returns_pod_with_ports _ _ _ _ Hrun) as Hno.
  split; [exact Hno|]. destruct Hno as (ports & Hports & Htruthy).
  unfold ports_of in Hports. destruct pod as [| | | | |d]; try discriminate.
  destruct (dict_lookup "runtime" d) as [[| | | | |rt]|] eqn:Hrt; try discriminate.
  exists (PDict rt), ports. simpl. now rewrite Hrt, Hports.
Qed.

(** X3: an error of the provider during a poll is not retried: when poll
    [k + 1] fails after [k] polls without ports, the waiter raises that
    error in the world right after the failed poll. *)
Theorem provider_error_ends_wait pod_id (k : nat) w msg w1 :
  (forall j, (j < k)%nat -> finds_no_ports (poll pod_id j w) = true) ->
  Z.of_nat k <= n_attempts ->
  poll pod_id k w = (Raise (ProviderError msg), w1) ->
  wait_for_ports pod_id w = (Raise (ProviderError msg), w1) /\
  trace w1 = (trace w ++ idle_polls pod_id k ++ [EGetPod pod_id])%list.
Proof.
  intros Hidle Hk Hpoll. split.
  - unfold wait_for_ports. rewrite (wait_loop_idle pod_id k) by (auto; lia).
    now apply wait_loop_provider_error.
  - pose proof (poll_trace pod_id k w) as Ht. now rewrite Hpoll in Ht.
Qed.

(** X4: a poll answered by something that is not a dictionary (the
    provider knows no such pod and answers [None], say) ends the wait
    with an [AttributeError], and so does a runtime descriptor that is
    neither [None] nor a dictionary. *)
Theorem malformed_answer_ends_wait pod_id (k : nat) w pod w1 :
  (forall j, (j < k)%nat -> finds_no_ports (poll pod_id j w) = true) ->
  Z.of_nat k <= n_attempts ->
  poll pod_id k w = (Ok pod, w1) ->
  (forall d, pod <> PDict d) \/
  (exists d rt, pod = PDict d /\ dict_lookup "runtime" d = Some rt /\
                rt <> PNone /\ forall x, rt <> PDict x) ->
  wait_for_ports pod_id w = (Raise AttributeError, w1).
Proof.
  intros Hidle Hk Hpoll Hbad.
  unfold wait_for_ports. rewrite (wait_loop_idle pod_id k) by (auto; lia).
  apply (wait_loop_shape_error _ _ _ _ _ _ Hpoll).
  destruct Hbad as [Hpod | (d & rt & -> & Hrt & Hnone & Hdict)].
  - destruct pod as [| | | | |d]; try reflexivity. now destruct (Hpod d).
  - unfold no_ports_yet. simpl. rewrite Hrt. simpl.
    destruct rt as [| | | | |x]; try reflexivity; [congruence | now destruct (Hdict x)].
Qed.

End WaiterRuns.

Lemma wait_stays_within_budget_witness :
  exists k : nat,
    (k <= 36)%nat /\
    trace (snd (wait_for_ports (PStr "pod-1") ready_third)) =
      (idle_polls (PStr "pod-1") k ++ [EGetPod (PStr "pod-1")])%list.
Proof.
  destruct (wait_stays_within_budget (PStr "pod-1") ready_third
              (fst (wait_for_ports (PStr "pod-1") ready_third))
              (snd (wait_for_ports (PStr "pod-1") ready_third)))
    as (k & Hk & Htrace & _).
  - apply surjective_pairing.
  - exists k. split; [exact Hk | exact Htrace].
Defined.

Lemma ready_pod_has_ports_witness : has_ports (pod_with_ports example_ports).
Proof.
  destruct (ready_pod_has_ports (PStr "pod-1") ready_third (pod_with_ports example_ports)
              (snd (wait_for_ports (PStr "pod-1") ready_third))) as [Hports _].
  - vm_compute. reflexivity.
  - exact Hports.
Defined.

Lemma provider_error_ends_wait_witness :
  fst (wait_for_ports (PStr "pod-1") down_world) = Raise (ProviderError "connection refused").
Proof.
  destruct (provider_error_ends_wait (PStr "pod-1") 0 down_world "connection refused"
              (snd (poll (PStr "pod-1") 0 down_world))) as [Hrun _].
  - intros j Hj. lia.
  - unfold n_attempts. lia.
  - reflexivity.
  - now rewrite Hrun.
Defined.

Lemma malformed_answer_ends_wait_witness :
  fst (wait_for_ports (PStr "pod-1") vanishes) = Raise AttributeError.
Proof.
  rewrite (malformed_answer_ends_wait (PStr "pod-1") 1 vanishes PNone
             (snd (poll (PStr "pod-1") 1 vanishes))).
  - reflexivity.
  - intros [|j] Hj; [vm_compute; reflexivity | lia].
  - unfold n_attempts. lia.
  - vm_compute. reflexivity.
  - left. discriminate.
Defined.

(** ** The request and the files of [create_pod] *)

#[global] Arguments startup_command : simpl never.

Section CreatePodRuns.
Context {P : Type} `{!Provider P}.
Implicit Types (w : @world P) (a : create_args).

#[global] Instance nothing_written_frame : Frame (@nothing_written P).
Proof.
  split; unfold nothing_written.
  - auto.
  - intros w1 w2 w3 [H1 H2] [H3 H4]. split; congruence.
Qed.

#[global] Instance only_config_written_frame : Frame (@only_config_written P).
Proof.
  split; unfold only_config_written.
  - auto.
  - intros w1 w2 w3 [H1 H2] [H3 H4]. split; [congruence|].
    intros path Hpath. rewrite H4, H2; [reflexivity | exact Hpath |].
    unfold ssh_config_path in *. now rewrite H1.
Qed.

Lemma nothing_written_kept {A} (m : M A) :
  (forall w, home (snd (m w)) = home w /\ files (snd (m w)) = files w) ->
  preserves (@nothing_written P) m.
Proof. intros Hm w r w' H. unfold nothing_written. rewrite <- (proj1 (Hm w)), <- (proj2 (Hm w)), H. now split. Qed.

Lemma only_config_weaken {A} (m : M A) :
  preserves (@nothing_written P) m -> preserves (@only_config_written P) m.
Proof.
  intros Hm w r w' H. destruct (Hm w r w' H) as [Hh Hf]. split; [exact Hh|].
  intros path _. now rewrite Hf.
Qed.

Lemma nothing_print text : preserves (@nothing_written P) (print text).
Proof. now apply nothing_written_kept. Qed.

Lemma nothing_sleep t : preserves (@nothing_written P) (sleep t).
Proof. now apply nothing_written_kept. Qed.

Lemma nothing_call e op : preserves (@nothing_written P) (call e op).
Proof.
  apply nothing_written_kept. intros w. unfold call. simpl.
  now destruct (op _) as [[msg|v] p].
Qed.

Lemma nothing_store pod_id pod_host_id :
  preserves (@nothing_written P) (store_pod_host_id pod_id pod_host_id).
Proof. apply nothing_written_kept. intros w. now destruct pod_id. Qed.

Lemma only_config_write data :
  preserves (@only_config_written P) (fun w => write_text (ssh_config_path w) data w).
Proof.
  intros w r w' H. unfold write_text in H.
  destruct (decide (dirname (ssh_config_path w) ∈ dirs w)); inversion H; subst.
  - split; [reflexivity|]. simpl. intros path Hpath. now apply lookup_insert_ne.
  - now split.
Qed.

Hint Resolve nothing_print nothing_sleep nothing_call nothing_store
  only_config_weaken only_config_write : frame.
Hint Unfold runpod_create_pod runpod_get_pod : frame.

Lemma launch_writes_nothing a : preserves (@nothing_written P) (launch a).
Proof. unfold launch. cbv zeta. repeat frame_step. Qed.

Lemma wait_writes_nothing pod_id : preserves (@nothing_written P) (wait_for_ports pod_id).
Proof.
  unfold wait_for_ports.
  apply preserves_wait_loop; [typeclasses eauto | apply nothing_call | apply nothing_sleep].
Qed.

(** X5: whatever the provider answers and however [create_pod] ends,
    the only file it can have changed is the SSH configuration file
    under the home directory; and when [update_ssh_config] is off it has
    changed no file at all. *)
Theorem create_pod_writes_only_ssh_config a w r w' :
  create_pod a w = (r, w') ->
  (forall path, path <> home w +:+ "/.ssh/runpod_config" ->
     files w' !! path = files w !! path) /\
  (update_ssh_config a = false -> files w' = files w).
Proof.
  intros Hrun. split.
  - assert (Hframe : preserves (@only_config_written P) (create_pod a)).
    { unfold create_pod.
      apply preserves_bind; [typeclasses eauto | | intros ids].
      { apply only_config_weaken, launch_writes_nothing. }
      apply preserves_bind; [typeclasses eauto | | intros pod].
      { apply only_config_weaken, wait_writes_nothing. }
      unfold present. repeat frame_step. }
    exact (proj2 (Hframe w r w' Hrun)).
  - intros Hupd.
    assert (Hframe : preserves (@nothing_written P) (create_pod a)).
    { unfold create_pod.
      apply preserves_bind; [typeclasses eauto | | intros ids].
      { apply launch_writes_nothing. }
      apply preserves_bind; [typeclasses eauto | | intros pod].
      { apply wait_writes_nothing. }
      unfold present. rewrite Hupd. repeat frame_step. }
    exact (proj2 (Hframe w r w' Hrun)).
Qed.

End CreatePodRuns.

Lemma create_pod_writes_only_ssh_config_witness :
  files (snd (create_pod default_args ready_first)) !! "/home/user/.bashrc" = None.
Proof.
  destruct (create_pod_writes_only_ssh_config default_args ready_first
              (fst (create_pod default_args ready_first))
              (snd (create_pod default_args ready_first))) as [Hother _].
  - apply surjective_pairing.
  - rewrite Hother; [reflexivity | discriminate].
Defined.

(** ** The creation request *)

Section Launch.
Context {P : Type} `{!Provider P}.
Implicit Types (w : @world P) (a : create_args).

Lemma logs_announced a w :
  logs (announcement a ++ [ECreatePod (request_of a)]) w = announced a w.
Proof. apply logs_trace. Qed.

(** [launch] up to the answer of the provider. *)
Lemma launch_unfold a w :
  launch a w =
    match provider_create_pod (request_of a) (remote w) with
    | (inl msg, p) => (Raise (ProviderError msg), set_remote p (announced a w))
    | (inr pod, p) =>
        bind (lift (py_get pod "id" PNone)) (fun pod_id =>
        bind (lift (machine_field pod "podHostId")) (fun pod_host_id =>
        bind (if py_truthy pod_host_id
              then store_pod_host_id pod_id pod_host_id else ret tt) (fun _ =>
        bind (print "Pod created:") (fun _ =>
        bind (print ("  Instance ID: " +:+ py_str pod_id)) (fun _ =>
        bind (print ("  Pod Host ID: " +:+ py_str pod_host_id)) (fun _ =>
        bind (print "  Provisioning...") (fun _ =>
        ret (pod_id, pod_host_id))))))))
          (set_remote p (announced a w))
    end.
Proof.
  unfold launch. cbv zeta. rewrite !bind_print.
  unfold runpod_create_pod. rewrite bind_call.
  fold (request_of a).
  match goal with
  | |- context [set_remote _ (log ?e ?wn)] =>
      change (log e wn) with (logs (announcement a ++ [ECreatePod (request_of a)]) w);
      change (remote wn) with (remote w)
  end.
  rewrite logs_announced.
  destruct (provider_create_pod (request_of a) (remote w)) as [[msg|pod] p]; reflexivity.
Qed.

(** X6: [create_pod] first prints its announcement, whose last line
    shows the startup command, and then sends one creation request,
    which carries that same command, the ports [8888/http,22/tcp] and
    the caller's parameters.  This holds however the call ends; the
    events that follow hold no second creation, no listing and no
    termination. *)
Theorem create_pod_sends_one_request a w r w' :
  create_pod a w = (r, w') ->
  exists rest,
    trace w' = (trace w ++ announcement a ++ ECreatePod (request_of a) :: rest)%list /\
    forallb (fun e => is_print e || is_get_pod e || is_sleep e || is_write e) rest = true /\
    req_docker_args (request_of a) =
      startup_command (volume_mount_path a) (args a) (runtime a) /\
    req_ports (request_of a) = "8888/http,22/tcp".
Proof.
  set (ok := fun e => is_print e || is_get_pod e || is_sleep e || is_write e).
  intros Hrun.
  assert (Hrest : forall (m : M unit),
            preserves (@grows_by P ok) m ->
            m (announced a w) = (r, w') ->
            exists rest,
              trace w' = (trace w ++ announcement a ++ ECreatePod (request_of a) :: rest)%list /\
              forallb ok rest = true).
  { intros m Hm Hmw. destruct (Hm _ _ _ Hmw) as (rest & Ht & Hok).
    exists rest. split; [|exact Hok]. rewrite Ht. simpl. now rewrite <- !app_assoc. }
  assert (Hgoal : exists rest,
            trace w' = (trace w ++ announcement a ++ ECreatePod (request_of a) :: rest)%list /\
            forallb ok rest = true); [|destruct Hgoal as (rest & ? & ?); eauto].
  unfold create_pod in Hrun. unfold bind at 1 in Hrun. rewrite launch_unfold in Hrun.
  destruct (provider_create_pod (request_of a) (remote w)) as [[msg|pod] p] eqn:Hcreate.
  - inversion Hrun; subst. exists []. split; reflexivity.
  - apply (Hrest (fun w0 =>
      match
        bind (lift (py_get pod "id" PNone)) (fun pod_id =>
        bind (lift (machine_field pod "podHostId")) (fun pod_host_id =>
        bind (if py_truthy pod_host_id
              then store_pod_host_id pod_id pod_host_id else ret tt) (fun _ =>
        bind (print "Pod created:") (fun _ =>
        bind (print ("  Instance ID: " +:+ py_str pod_id)) (fun _ =>
        bind (print ("  Pod Host ID: " +:+ py_str pod_host_id)) (fun _ =>
        bind (print "  Provisioning...") (fun _ =>
        ret (pod_id, pod_host_id)))))))) (set_remote p w0)
      with
      | (Ok ids, w1) =>
          bind (wait_for_ports (fst ids)) (fun pod0 => present a pod0 (snd ids)) w1
      | (Raise e, w1) => (Raise e, w1)
      end)); [|exact Hrun].
    intros w0 r0 w0' H0.
    assert (Hsteps : preserves (@grows_by P ok)
              (bind (bind (lift (py_get pod "id" PNone)) (fun pod_id =>
                     bind (lift (machine_field pod "podHostId")) (fun pod_host_id =>
                     bind (if py_truthy pod_host_id
                           then store_pod_host_id pod_id pod_host_id else ret tt) (fun _ =>
                     bind (print "Pod created:") (fun _ =>
                     bind (print ("  Instance ID: " +:+ py_str pod_id)) (fun _ =>
                     bind (print ("  Pod Host ID: " +:+ py_str pod_host_id)) (fun _ =>
                     bind (print "  Provisioning...") (fun _ =>
                     ret (pod_id, pod_host_id)))))))))
                 (fun ids => bind (wait_for_ports (fst ids))
                               (fun pod0 => present a pod0 (snd ids))))).
    { apply preserves_bind; [typeclasses eauto | | intros ids].
      { repeat frame_step; apply grows_silent; intros w2; now destruct a0. }
      apply preserves_bind; [typeclasses eauto | | intros pod0].
      { unfold wait_for_ports.
        apply preserves_wait_loop;
          [typeclasses eauto | apply grows_call; reflexivity | apply grows_sleep; reflexivity]. }
      unfold present. repeat frame_step. }
    destruct (Hsteps (set_remote p w0) r0 w0') as (rest & Ht & Hok).
    { unfold bind at 1. exact H0. }
    exists rest. split; [exact Ht | exact Hok].
Qed.

(** X7: when the provider refuses the creation, [create_pod] ends with
    the provider's error right after the request: no poll is made, no
    sleep, nothing is written and no host id is stored. *)
Theorem create_failure_is_fatal a w msg p :
  provider_create_pod (request_of a) (remote w) = (inl msg, p) ->
  exists w',
    create_pod a w = (Raise (ProviderError msg), w') /\
    trace w' = (trace w ++ announcement a ++ [ECreatePod (request_of a)])%list /\
    remote w' = p /\
    files w' = files w /\
    pod_host_ids w' = pod_host_ids w.
Proof.
  intros Hcreate. eexists. unfold create_pod. unfold bind at 1.
  rewrite launch_unfold, Hcreate. split; [reflexivity|]. repeat split.
Qed.

(** X8: when the provider answers the creation with a pod dictionary,
    [launch] returns the pod's id and the host id of its machine, and
    stores the host id under the pod id exactly when the host id is
    reported (truthy); a pod without machine or host id is launched all
    the same. *)
Theorem host_id_stored_when_reported a w d p host :
  provider_create_pod (request_of a) (remote w) = (inr (PDict d), p) ->
  machine_field (PDict d) "podHostId" = Ok host ->
  hashable (field (PDict d) "id") ->
  exists w1,
    launch a w = (Ok (field (PDict d) "id", host), w1) /\
    pod_host_ids w1 =
      ((if py_truthy host then [(field (PDict d) "id", host)] else []) ++ pod_host_ids w)%list /\
    remote w1 = p.
Proof.
  intros Hcreate Hhost Hid. rewrite launch_unfold, Hcreate.
  unfold bind at 1. unfold lift at 1. cbn [py_get].
  unfold bind at 1. rewrite Hhost. unfold lift at 1.
  change (default PNone (dict_lookup "id" d)) with (field (PDict d) "id").
  destruct (py_truthy host).
  - destruct (field (PDict d) "id"); try contradiction;
      (eexists; split; [reflexivity|]; split; reflexivity).
  - eexists. split; [reflexivity|]. split; reflexivity.
Qed.

End Launch.

Lemma create_pod_sends_one_request_witness :
  exists rest,
    trace (snd (create_pod default_args ready_first)) =
      (announcement default_args ++ ECreatePod (request_of default_args) :: rest)%list /\
    req_docker_args (request_of default_args) =
      "/bin/bash -c '/ssd/start.sh; sleep 7200; /ssd/terminate.sh'".
Proof.
  destruct (create_pod_sends_one_request default_args ready_first
              (fst (create_pod default_args ready_first))
              (snd (create_pod default_args ready_first)))
    as (rest & Htrace & _ & Hargs & _).
  - apply surjective_pairing.
  - exists rest. split; [exact Htrace|]. rewrite Hargs. vm_compute. reflexivity.
Defined.

Lemma create_failure_is_fatal_witness :
  exists w',
    create_pod default_args down_world = (Raise (ProviderError "connection refused"), w') /\
    List.filter is_api_call (trace w') = [ECreatePod (request_of default_args)].
Proof.
  destruct (create_failure_is_fatal default_args down_world "connection refused" (Down 1))
    as (w' & Hrun & Htrace & _).
  - reflexivity.
  - exists w'. split; [exact Hrun|]. rewrite Htrace. reflexivity.
Defined.

Lemma host_id_stored_when_reported_witness :
  exists w1,
    launch default_args never_ready = (Ok (PStr "pod-1", PStr "host-1"), w1) /\
    pod_host_ids w1 = [(PStr "pod-1", PStr "host-1")].
Proof.
  destruct (host_id_stored_when_reported default_args never_ready
              [("id", PStr "pod-1"); ("machine", PDict [("podHostId", PStr "host-1")])]
              (Sim [PStr "pod-1"] [] PNone 0) (PStr "host-1"))
    as (w1 & Hrun & Hids & _).
  - reflexivity.
  - reflexivity.
  - exact I.
  - exists w1. split; [exact Hrun | exact Hids].
Defined.

(** ** Listing, inspecting and terminating *)

Section ListingRuns.
Context {P : Type} `{!Provider P}.
Implicit Types (w : @world P) (pod : pyval) (d : list (string * pyval)).

#[global] Instance only_printed_frame : Frame (@only_printed P).
Proof.
  split.
  - intros w. exists []. simpl. now rewrite app_nil_r.
  - intros w1 w2 w3 (l1 & Ht1 & Hf1 & Hr1) (l2 & Ht2 & Hf2 & Hr2).
    exists (l1 ++ l2)%list. rewrite Ht2, Ht1, map_app, <- app_assoc.
    repeat split; congruence.
Qed.

Lemma only_printed_print text : preserves (@only_printed P) (print text).
Proof. intros w r w' H. inversion H. exists [text]. now repeat split. Qed.

Hint Resolve only_printed_print : frame.

Lemma list_pods_item_only_prints (i : nat) pod :
  preserves (@only_printed P) (list_pods_item i pod).
Proof. unfold list_pods_item. repeat frame_step. Qed.

Lemma for_enumerate_only_prints l : forall i : nat,
  preserves (@only_printed P) (for_enumerate list_pods_item i l).
Proof.
  induction l as [|x l IH]; intros i; cbn [for_enumerate].
  - apply preserves_ret. typeclasses eauto.
  - apply preserves_bind; [typeclasses eauto | apply list_pods_item_only_prints | intros _; apply IH].
Qed.

Lemma after_call {A} e op (k : pyval -> M A) w r w' :
  (forall v, preserves (@only_printed P) (k v)) ->
  bind (call e op) k w = (r, w') ->
  exists lines,
    trace w' = (trace w ++ e :: map EPrint lines)%list /\
    files w' = files w /\
    remote w' = snd (op (remote w)).
Proof.
  intros Hk. rewrite bind_call.
  destruct (op (remote w)) as [[msg|v] p]; intros Hrun.
  - inversion Hrun; subst. exists []. now repeat split.
  - destruct (Hk v _ _ _ Hrun) as (lines & Ht & Hf & Hr).
    exists lines. rewrite Ht, Hf, Hr. simpl. now rewrite <- app_assoc.
Qed.

(** X9: [list_pods] and [get_pod] make one call to the provider, their
    first action, and then only print: however they end, the trace has
    grown by that call followed by printed lines, the remote state is
    the one the call left, and no file has changed. *)
Theorem read_commands_make_one_call (c : command) (e : event) w r w' :
  read_call c = Some e ->
  dispatch c w = (r, w') ->
  exists lines,
    trace w' = (trace w ++ e :: map EPrint lines)%list /\
    files w' = files w /\
    remote w' =
      match c with
      | GetPod pod_id => snd (provider_get_pod pod_id (remote w))
      | _ => snd (provider_get_pods (remote w))
      end.
Proof.
  destruct c as [|pod_id| |]; try discriminate; intros He Hrun; inversion He; subst e;
    cbn [dispatch] in Hrun.
  - unfold list_pods, runpod_get_pods in Hrun.
    apply after_call in Hrun; [exact Hrun|].
    intros v. apply preserves_bind; [typeclasses eauto | eauto with frame |].
    intros items. apply for_enumerate_only_prints.
  - unfold get_pod, runpod_get_pod in Hrun.
    apply after_call in Hrun; [exact Hrun|].
    intros v. repeat frame_step.
Qed.

Lemma list_pods_item_lines (i : nat) pod w :
  has_one_public_ip pod ->
  exists w' lines,
    list_pods_item i pod w = (Ok tt, w') /\
    trace w' = (trace w ++ map EPrint lines)%list /\
    length lines = 8%nat /\
    head lines = Some ("Pod " +:+ pretty (Z.of_nat i + 1) +:+ ":") /\
    remote w' = remote w.
Proof.
  intros (d & l & b & -> & Hm & Hl & Hone).
  assert (Hb : binding b).
  { assert (Hin : In b l) by (eapply List.filter_In; rewrite Hone; now left).
    destruct Hl as [(_ & ->) | (rt & _ & [(_ & ->) | (_ & Hall)])]; try contradiction.
    exact (proj1 (List.Forall_forall _ _) Hall b Hin). }
  unfold list_pods_item, bind, print, lift.
  destruct (machine_field_ok d "gpuDisplayName" Hm) as (v & ->).
  rewrite (listed_public_ip_ok _ _ Hl), Hone. cbn [the_public_ip].
  rewrite !(binding_get _ _ Hb).
  eexists. eexists [_; _; _; _; _; _; _; _]. split; [reflexivity|]. simpl.
  rewrite <- !app_assoc. repeat split.
Qed.

Lemma for_enumerate_lines l : forall (i : nat) w,
  Forall has_one_public_ip l ->
  exists w' lines,
    for_enumerate list_pods_item i l w = (Ok tt, w') /\
    trace w' = (trace w ++ map EPrint lines)%list /\
    length lines = (8 * length l)%nat /\
    remote w' = remote w.
Proof.
  induction l as [|x l IH]; intros i w Hall.
  - exists w, []. simpl. rewrite app_nil_r. now repeat split.
  - inversion Hall as [|? ? Hx Hl]; subst.
    destruct (list_pods_item_lines i x w Hx) as (w1 & l1 & Hrun1 & Ht1 & Hn1 & _ & Hr1).
    destruct (IH (S i) w1 Hl) as (w2 & l2 & Hrun2 & Ht2 & Hn2 & Hr2).
    exists w2, (l1 ++ l2)%list. cbn [for_enumerate]. unfold bind. rewrite Hrun1.
    split; [exact Hrun2|]. rewrite Ht2, Ht1, map_app, <- app_assoc, length_app.
    repeat split; [simpl; lia | congruence].
Qed.

(** X10: when every listed pod has exactly one public binding,
    [list_pods] succeeds after one call and eight printed lines per pod;
    for an account without pods it prints nothing. *)
Theorem list_pods_shows_every_pod w pods p :
  provider_get_pods (remote w) = (inr (PList pods), p) ->
  Forall has_one_public_ip pods ->
  exists w' lines,
    list_pods w = (Ok tt, w') /\
    trace w' = (trace w ++ EGetPods :: map EPrint lines)%list /\
    length lines = (8 * length pods)%nat /\
    remote w' = p.
Proof.
  intros Hget Hall. unfold list_pods, runpod_get_pods. rewrite bind_call, Hget.
  unfold bind, lift. cbn [py_iter].
  destruct (for_enumerate_lines pods 0%nat (set_remote p (log EGetPods w)) Hall)
    as (w' & lines & Hrun & Ht & Hn & Hr).
  exists w', lines. split; [exact Hrun|]. rewrite Ht, Hr. simpl.
  rewrite <- app_assoc. now repeat split.
Qed.

(** X11: a port binding without the key [isIpPublic] makes the
    comprehension fail with a [KeyError], whether or not a public
    binding stands before it; [create_pod] then ends with that error
    right after the line that the pod is provisioned, not with the
    assertion. *)
Theorem missing_flag_is_key_error (a : create_args) pod pod_host_id w pre d rest :
  ports_of pod = Some (PList (pre ++ PDict d :: rest)) ->
  Forall binding pre ->
  dict_lookup "isIpPublic" d = None ->
  filter_public (pre ++ PDict d :: rest) = Raise (KeyError "isIpPublic") /\
  present a pod pod_host_id w =
    (Raise (KeyError "isIpPublic"), log (EPrint "  Pod provisioned") w) /\
  listed_public_ip pod = Raise (KeyError "isIpPublic").
Proof.
  intros Hports Hpre Hd.
  assert (Hfilter : filter_public (pre ++ PDict d :: rest) = Raise (KeyError "isIpPublic")).
  { clear Hports. induction Hpre as [|b pre Hb _ IH]; cbn [app filter_public].
    - cbn [py_getitem]. now rewrite Hd.
    - destruct (binding_flag b Hb) as (flag & -> & _). cbn [rbind]. now rewrite IH. }
  unfold ports_of in Hports. destruct pod as [| | | | |pd]; try discriminate.
  destruct (dict_lookup "runtime" pd) as [[| | | | |rt]|] eqn:Hrt; try discriminate.
  split; [exact Hfilter|]. split.
  - unfold present, bind, print, lift, provisioned_public_ip. simpl.
    rewrite Hrt. simpl. rewrite Hports. simpl. now rewrite Hfilter.
  - unfold listed_public_ip. simpl. rewrite Hrt. simpl. rewrite Hports. simpl.
    exact Hfilter.
Qed.

(** X12: for a pod with a runtime descriptor that has a port collection,
    the comprehension of [list_pods] and [get_pod] and the one of
    [create_pod] give the same result; for a pod dictionary without the
    key [runtime] the former gives the empty list where the latter
    raises a [KeyError]. *)
Theorem comprehensions_agree pod ports :
  ports_of pod = Some ports ->
  listed_public_ip pod = provisioned_public_ip pod /\
  (forall d, dict_lookup "runtime" d = None ->
     listed_public_ip (PDict d) = Ok [] /\
     provisioned_public_ip (PDict d) = Raise (KeyError "runtime")).
Proof.
  intros Hports. split.
  - unfold ports_of in Hports. destruct pod as [| | | | |d]; try discriminate.
    destruct (dict_lookup "runtime" d) as [[| | | | |rt]|] eqn:Hrt; try discriminate.
    unfold listed_public_ip, provisioned_public_ip. simpl.
    rewrite Hrt. simpl. now rewrite Hports.
  - intros d Hd. unfold listed_public_ip, provisioned_public_ip. simpl.
    now rewrite Hd.
Qed.

(** X13: [terminate_pod] announces the termination, sends one
    termination call for the given id, and reports the answer; when
    the provider fails, its error is raised and no report is printed. *)
Theorem terminate_pod_sends_one_call pod_id w r w' :
  terminate_pod pod_id w = (r, w') ->
  exists report,
    trace w' =
      (trace w ++ EPrint ("Terminating pod " +:+ py_str pod_id +:+ "...") ::
                  ETerminatePod pod_id :: report)%list /\
    remote w' = snd (provider_terminate_pod pod_id (remote w)) /\
    files w' = files w /\
    match fst (provider_terminate_pod pod_id (remote w)) with
    | inr res => r = Ok tt /\ report = [EPrint ("Pod terminated: " +:+ py_str res)]
    | inl msg => r = Raise (ProviderError msg) /\ report = []
    end.
Proof.
  unfold terminate_pod. rewrite bind_print. unfold runpod_terminate_pod.
  rewrite bind_call. cbn [remote log].
  destruct (provider_terminate_pod pod_id (remote w)) as [[msg|res] p]; intros Hrun;
    inversion Hrun; subst; eexists; cbn; rewrite <- ?app_assoc; repeat split.
Qed.

End ListingRuns.

Lemma read_commands_make_one_call_witness :
  exists lines,
    trace (snd (list_pods two_pods_listed)) = EGetPods :: map EPrint lines.
Proof.
  destruct (read_commands_make_one_call ListPods EGetPods two_pods_listed
              (fst (list_pods two_pods_listed)) (snd (list_pods two_pods_listed)))
    as (lines & Htrace & _).
  - reflexivity.
  - apply surjective_pairing.
  - exists lines. exact Htrace.
Defined.

Lemma list_pods_shows_every_pod_witness :
  exists w' lines,
    list_pods two_running = (Ok tt, w') /\
    trace w' = EGetPods :: map EPrint lines /\
    length lines = 16%nat.
Proof.
  assert (Hpod : has_one_public_ip (pod_with_ports example_ports)).
  { eexists _, _, _. split; [reflexivity|]. split; [left; reflexivity|]. split.
    - right. eexists. split; [reflexivity|]. right. split; [reflexivity|].
      repeat constructor; do 2 eexists; split; reflexivity.
    - reflexivity. }
  destruct (list_pods_shows_every_pod two_running
              [pod_with_ports example_ports; pod_with_ports example_ports]
              (remote two_running))
    as (w' & lines & Hrun & Htrace & Hn & _).
  - reflexivity.
  - repeat constructor; exact Hpod.
  - exists w', lines. split; [exact Hrun|]. split; [exact Htrace | exact Hn].
Defined.

Lemma missing_flag_is_key_error_witness :
  fst (present default_args (pod_with_ports flagless_ports) (PStr "host-1") ready_first)
    = Raise (KeyError "isIpPublic").
Proof.
  destruct (missing_flag_is_key_error default_args (pod_with_ports flagless_ports)
              (PStr "host-1") ready_first
              [PDict [("isIpPublic", PBool true); ("ip", PStr "1.2.3.4");
                      ("publicPort", PInt 40022)]]
              [("ip", PStr "10.0.0.7"); ("publicPort", PInt 60001)] [])
    as (_ & Hrun & _).
  - reflexivity.
  - repeat constructor; do 2 eexists; split; reflexivity.
  - reflexivity.
  - now rewrite Hrun.
Defined.

Lemma comprehensions_agree_witness :
  listed_public_ip (pod_with_ports example_ports) =
  provisioned_public_ip (pod_with_ports example_ports).
Proof.
  destruct (comprehensions_agree (pod_with_ports example_ports) example_ports) as [Hsame _].
  - reflexivity.
  - exact Hsame.
Defined.

Lemma terminate_pod_sends_one_call_witness :
  exists report,
    trace (snd (terminate_pod (PStr "pod-1") two_keys)) =
      EPrint "Terminating pod pod-1..." :: ETerminatePod (PStr "pod-1") :: report.
Proof.
  destruct (terminate_pod_sends_one_call (PStr "pod-1") two_keys
              (fst (terminate_pod (PStr "pod-1") two_keys))
              (snd (terminate_pod (PStr "pod-1") two_keys)))
    as (report & Htrace & _).
  - apply surjective_pairing.
  - exists report. exact Htrace.
Defined.

(** ** The key and the text of the configuration *)

Section Key.
Context {P : Type} `{!Provider P}.
Implicit Types (w : @world P).

Lemma init_with_key w c k :
  (dotenv w ∪ environ w) !! "RUNPOD_API_KEY" = Some (String c k) ->
  __init__ w = (Ok tt, initialised (String c k) w).
Proof.
  intros Hkey. unfold __init__, bind, load_dotenv, getenv, set_api_key, set_pod_host_ids.
  cbn [environ dotenv home files remote trace api_key pod_host_ids].
  rewrite Hkey. reflexivity.
Qed.

Lemma init_empty_key w :
  (dotenv w ∪ environ w) !! "RUNPOD_API_KEY" = Some "" ->
  exists w',
    __init__ w = (Raise (ValueError
                    "RUNPOD_API_KEY not found in environment. Set it in your .env file."), w') /\
    trace w' = trace w /\ remote w' = remote w.
Proof.
  intros Hkey. unfold __init__, bind, load_dotenv, getenv, set_api_key.
  cbn [environ dotenv home files remote trace api_key pod_host_ids].
  rewrite Hkey. eexists. repeat split.
Qed.

(** X14: a non-empty key of the [.env] file is the one the manager
    uses, whatever the environment holds; the key of the environment is
    used when the [.env] file has none.  The command then runs in a
    world that differs from the initial one only in the environment and
    the attributes of the manager. *)
Theorem dotenv_key_overrides (c : command) w key :
  dotenv w !! "RUNPOD_API_KEY" = Some key \/
  (dotenv w !! "RUNPOD_API_KEY" = None /\ environ w !! "RUNPOD_API_KEY" = Some key) ->
  key <> "" ->
  __init__ w = (Ok tt, initialised key w) /\
  api_key (initialised key w) = Some key /\
  main c w = dispatch c (initialised key w).
Proof.
  intros Hkey Hne.
  assert (Hlook : (dotenv w ∪ environ w) !! "RUNPOD_API_KEY" = Some key).
  { destruct Hkey as [Hd | [Hd He]].
    - now apply lookup_union_Some_l.
    - rewrite lookup_union_r; assumption. }
  destruct key as [|x k]; [congruence|].
  pose proof (init_with_key w x k Hlook) as Hinit.
  split; [exact Hinit|]. split; [reflexivity|].
  unfold main, bind. now rewrite Hinit.
Qed.

(** X15: a key that is set but empty is refused like a missing one, and
    before any call; an empty key in the [.env] file has this effect
    even when the environment holds a key. *)
Theorem empty_key_is_refused (c : command) w :
  dotenv w !! "RUNPOD_API_KEY" = Some "" \/
  (dotenv w !! "RUNPOD_API_KEY" = None /\ environ w !! "RUNPOD_API_KEY" = Some "") ->
  exists w',
    main c w = (Raise (ValueError
                  "RUNPOD_API_KEY not found in environment. Set it in your .env file."), w') /\
    trace w' = trace w /\ remote w' = remote w.
Proof.
  intros Hkey.
  assert (Hlook : (dotenv w ∪ environ w) !! "RUNPOD_API_KEY" = Some "").
  { destruct Hkey as [Hd | [Hd He]].
    - now apply lookup_union_Some_l.
    - rewrite lookup_union_r; assumption. }
  destruct (init_empty_key w Hlook) as (w' & Hinit & Ht & Hr).
  exists w'. unfold main, bind. rewrite Hinit. now repeat split.
Qed.

End Key.

Lemma dotenv_key_overrides_witness :
  api_key (snd (__init__ two_keys)) = Some "from-dotenv" /\
  environ two_keys !! "RUNPOD_API_KEY" = Some "secret".
Proof.
  destruct (dotenv_key_overrides ListPods two_keys "from-dotenv") as (Hinit & Hkey & _).
  - left. reflexivity.
  - discriminate.
  - rewrite Hinit. split; [exact Hkey | reflexivity].
Defined.

Lemma empty_key_is_refused_witness :
  exists w',
    main (CreatePod default_args) empty_key =
      (Raise (ValueError
         "RUNPOD_API_KEY not found in environment. Set it in your .env file."), w') /\
    trace w' = [].
Proof.
  destruct (empty_key_is_refused (CreatePod default_args) empty_key)
    as (w' & Hrun & Htrace & _).
  - right. split; reflexivity.
  - exists w'. split; [exact Hrun | exact Htrace].
Defined.

(** X16: for an IP and a user of one line and a port that is a word of
    visible ASCII characters, asking for agent forwarding changes the
    configuration text by one line at its end and nothing else. *)
Theorem forward_agent_adds_last_line (ip port user : pyval) :
  one_line (py_str ip) ->
  one_line (py_str user) ->
  one_word (py_str port) ->
  generate_ssh_config ip port user true =
    generate_ssh_config ip port user false +:+ nl +:+ "  ForwardAgent yes".
Proof.
  intros Hip Huser Hport.
  rewrite !generate_ssh_config_lines by assumption.
  cbn [app join]. rewrite !append_assoc_r. reflexivity.
Qed.

Lemma forward_agent_adds_last_line_witness :
  generate_ssh_config (PStr "1.2.3.4") (PInt 40022) (PStr "root") true =
    generate_ssh_config (PStr "1.2.3.4") (PInt 40022) (PStr "root") false +:+ nl +:+
    "  ForwardAgent yes".
Proof.
  apply forward_agent_adds_last_line.
  - reflexivity.
  - reflexivity.
  - split; [discriminate | reflexivity].
Defined.

(** ** Successful runs *)

Section Success.
Context {P : Type} `{!Provider P}.
Implicit Types (w : @world P) (pod b : pyval) (a : create_args).




(** X18: for a pod with exactly one public binding, [get_pod] succeeds
    after one call and nine printed lines, the first being the heading
    and the last the line of the full data; the remote state is the one
    the call left. *)
Theorem get_pod_shows_pod pod_id w pod p :
  provider_get_pod pod_id (remote w) = (inr pod, p) ->
  has_one_public_ip pod ->
  exists w' lines data,
    get_pod pod_id w = (Ok tt, w') /\
    trace w' = (trace w ++ EGetPod pod_id :: map EPrint lines)%list /\
    length lines = 9%nat /\
    head lines = Some "Pod Details:" /\
    last lines = Some ("  Full Data: " +:+ data) /\
    remote w' = p.
Proof.
  intros Hget (d & l & b & -> & Hm & Hl & Hone).
  assert (Hb : binding b).
  { assert (Hin : In b l) by (eapply List.filter_In; rewrite Hone; now left).
    destruct Hl as [(_ & ->) | (rt & _ & [(_ & ->) | (_ & Hall)])]; try contradiction.
    exact (proj1 (List.Forall_forall _ _) Hall b Hin). }
  unfold get_pod, runpod_get_pod. rewrite bind_call, Hget.
  unfold bind, print, lift.
  destruct (machine_field_ok d "gpuDisplayName" Hm) as (v1 & ->).
  destruct (machine_field_ok d "podHostId" Hm) as (v2 & ->).
  rewrite (listed_public_ip_ok _ _ Hl), Hone. cbn [the_public_ip].
  rewrite !(binding_get _ _ Hb).
  eexists. eexists [_; _; _; _; _; _; _; _; _], _. split; [reflexivity|].
  cbn [trace log set_remote map remote]. rewrite <- !app_assoc. repeat split.
Qed.

End Success.


Lemma get_pod_shows_pod_witness :
  exists w' lines,
    get_pod (PStr "pod-1") ready_first = (Ok tt, w') /\
    trace w' = EGetPod (PStr "pod-1") :: map EPrint lines /\
    length lines = 9%nat.
Proof.
  destruct (get_pod_shows_pod (PStr "pod-1") ready_first (pod_with_ports example_ports)
              (Sim [] [] PNone 0))
    as (w' & lines & data & Hrun & Htrace & Hn & _).
  - reflexivity.
  - eexists _, _, _. split; [reflexivity|]. split; [left; reflexivity|]. split.
    + right. eexists. split; [reflexivity|]. right. split; [reflexivity|].
      repeat constructor; do 2 eexists; split; reflexivity.
    + reflexivity.
  - exists w', lines. split; [exact Hrun|]. split; [exact Htrace | exact Hn].
Defined.


